(** * ScholarJS: the article parsers of lib/modules

    A shallow embedding of [scholar_articleParser.js] (class
    [ScholarArticleParser]) and [scholar_articleParser_120201.js] (class
    [ScholarArticleParser_120201]), and the properties of the parsing
    pipeline stated over it.

    The two files are ECMAScript; the embedding follows the language as the
    files use it: [for (x in e)] enumerates property keys (strings),
    [s.split(sep, limit)] keeps at most [limit] pieces, a comma inside
    [tag[..]] is the comma operator, a class body is strict code, a [static]
    method is a property of the constructor and not of its instances.  What
    the files use without defining it is a parameter: the free identifiers
    [int] and [length] and the string methods [strip] and [endWith] are
    fields of the record [Host], the soup adapter is the record [Soup]. *)

From Stdlib Require Import String Ascii List ZArith Bool Lia DecimalString.
Import ListNotations.
Open Scope string_scope.
Set Warnings "-register-all".

(** ** Completions: a value or a thrown exception *)

Module Js.

Inductive exn : Type := TypeError | ReferenceError | SyntaxError | RangeError.

Inductive js (A : Type) : Type :=
| Ret (a : A)
| Throw (e : exn).

Arguments Ret {A} a.
Arguments Throw {A} e.

Definition bind {A B : Type} (c : js A) (k : A -> js B) : js B :=
  match c with
  | Ret a => k a
  | Throw e => Throw e
  end.

Notation "x <- c ;; k" := (bind c (fun x => k))
  (at level 61, c at next level, right associativity).
Notation "c ;;; k" := (bind c (fun _ => k))
  (at level 61, right associativity).

(** [try { c } catch (e) { ... }] where the handler falls through or returns
    for every exception: the exception is dropped and [fallback] is the
    state the handler leaves. *)
Definition try_catch_all {A : Type} (c : js A) (fallback : A) : js A :=
  match c with
  | Ret a => Ret a
  | Throw _ => Ret fallback
  end.

(** A [for] loop whose variable takes the elements of [xs] in order; an
    exception in one iteration ends the loop. *)
Fixpoint for_each {A S : Type} (xs : list A) (body : A -> S -> js S) (s : S)
  : js S :=
  match xs with
  | [] => Ret s
  | x :: rest => s' <- body x s ;; for_each rest body s'
  end.

(** ** Values *)

Inductive value : Type :=
| VUndefined
| VNull
| VBool (b : bool)
| VNum (n : Z)
| VStr (s : string)
| VArr (xs : list value)
| VObj (props : list (string * value)).

Definition string_of_nat (n : nat) : string :=
  NilZero.string_of_uint (Nat.to_uint n).

Definition string_of_Z (n : Z) : string :=
  NilZero.string_of_int (Z.to_int n).

(** ToString.  An array joins its elements with a comma, [undefined] and
    [null] elements giving the empty string. *)
Fixpoint to_string (v : value) : string :=
  match v with
  | VUndefined => "undefined"
  | VNull => "null"
  | VBool true => "true"
  | VBool false => "false"
  | VNum n => string_of_Z n
  | VStr s => s
  | VArr xs =>
      (fix go (l : list value) : string :=
         match l with
         | [] => ""
         | x :: r =>
             let e := match x with
                      | VUndefined | VNull => ""
                      | _ => to_string x
                      end in
             match r with
             | [] => e
             | _ :: _ => e ++ "," ++ go r
             end
         end) xs
  | VObj _ => "[object Object]"
  end.

(** ToBoolean. *)
Definition truthy (v : value) : bool :=
  match v with
  | VUndefined | VNull => false
  | VBool b => b
  | VNum n => negb (n =? 0)%Z
  | VStr s => negb (s =? "")
  | VArr _ | VObj _ => true
  end.

(** [v == undefined] (equivalently [v == null]). *)
Definition nullish (v : value) : bool :=
  match v with
  | VUndefined | VNull => true
  | _ => false
  end.

(** [v == lit] for a string literal [lit] that is not a numeric string, as
    are all the literals the parsers compare with ('a', 'div', 'font', 'h3',
    'span'): a number or a boolean is never equal to it, an array or an
    object is compared through its ToString. *)
Definition loose_eq_name (v : value) (lit : string) : bool :=
  match v with
  | VStr s => s =? lit
  | VArr _ | VObj _ => to_string v =? lit
  | _ => false
  end.

(** ** Properties *)

(** The array index that the property key [k] denotes, among [0 .. len-1]. *)
Definition index_of_key (len : nat) (k : string) : option nat :=
  find (fun i => string_of_nat i =? k) (seq 0 len).

Fixpoint assoc (k : string) (props : list (string * value)) : option value :=
  match props with
  | [] => None
  | (k', v) :: rest => if k' =? k then Some v else assoc k rest
  end.

(** [v.hasOwnProperty(k)].  A string primitive owns its indices and
    [length], and so does an array. *)
Definition hasOwnProperty (v : value) (k : string) : js bool :=
  match v with
  | VUndefined | VNull => Throw TypeError
  | VBool _ | VNum _ => Ret false
  | VStr s =>
      Ret ((k =? "length") ||
           match index_of_key (String.length s) k with
           | Some _ => true | None => false end)
  | VArr xs =>
      Ret ((k =? "length") ||
           match index_of_key (List.length xs) k with
           | Some _ => true | None => false end)
  | VObj props =>
      Ret (match assoc k props with Some _ => true | None => false end)
  end.

(** [v[k]] for the keys the parsers read (name, href, string, text, class,
    a, h3, indices, -1, length), none of which is a member of a built-in
    prototype: an absent key gives [undefined]. *)
Definition get (v : value) (k : string) : js value :=
  match v with
  | VUndefined | VNull => Throw TypeError
  | VBool _ | VNum _ => Ret VUndefined
  | VStr s =>
      if k =? "length" then Ret (VNum (Z.of_nat (String.length s)))
      else match index_of_key (String.length s) k with
           | Some i => Ret (VStr (substring i 1 s))
           | None => Ret VUndefined
           end
  | VArr xs =>
      if k =? "length" then Ret (VNum (Z.of_nat (List.length xs)))
      else match index_of_key (List.length xs) k with
           | Some i => Ret (nth i xs VUndefined)
           | None => Ret VUndefined
           end
  | VObj props =>
      Ret (match assoc k props with Some x => x | None => VUndefined end)
  end.

(** The keys [for (k in v)] enumerates, in order.  They are strings
    whatever [v] is; [undefined], [null], numbers and booleans have none. *)
Definition for_in (v : value) : list string :=
  match v with
  | VStr s => map string_of_nat (seq 0 (String.length s))
  | VArr xs => map string_of_nat (seq 0 (List.length xs))
  | VObj props => map fst props
  | _ => []
  end.

(** ** String and array methods *)

(** The base of a member expression [v.m]: reading a member of [undefined]
    or [null] throws. *)
Definition member_base (v : value) : js unit :=
  if nullish v then Throw TypeError else Ret tt.

(** [recv.startsWith(p)]: only strings have the method. *)
Definition startsWith (recv : value) (p : string) : js bool :=
  match recv with
  | VStr s => Ret (prefix p s)
  | _ => Throw TypeError
  end.

(** The pieces of [s] between the occurrences of the character [c]. *)
Fixpoint split_on (c : ascii) (s : string) : list string :=
  match s with
  | EmptyString => [EmptyString]
  | String a r =>
      if Ascii.eqb a c then EmptyString :: split_on c r
      else match split_on c r with
           | h :: t => String a h :: t
           | [] => [String a EmptyString]
           end
  end.

(** [recv.split(sep, limit)] for a one-character separator, which all the
    separators of the parsers are.  Without a separator the whole string is
    the only piece; with a limit only the first [limit] pieces are kept. *)
Definition split (recv : value) (sep : option ascii) (limit : option nat)
  : js value :=
  match recv with
  | VStr s =>
      let pieces := match sep with
                    | None => [s]
                    | Some c => split_on c s
                    end in
      Ret (VArr (map VStr match limit with
                          | None => pieces
                          | Some n => firstn n pieces
                          end))
  | _ => Throw TypeError
  end.

Fixpoint join_strings (sep : string) (l : list string) : string :=
  match l with
  | [] => ""
  | [x] => x
  | x :: r => x ++ sep ++ join_strings sep r
  end.

(** [recv.join(sep)]: only arrays have the method. *)
Definition join (recv : value) (sep : string) : js value :=
  match recv with
  | VArr xs =>
      Ret (VStr (join_strings sep
                   (map (fun x => match x with
                                  | VUndefined | VNull => ""
                                  | _ => to_string x
                                  end) xs)))
  | _ => Throw TypeError
  end.

(** [recv.push(x)] on the array held in a record field: the new array. *)
Definition push (recv : value) (x : value) : js value :=
  match recv with
  | VArr xs => Ret (VArr (xs ++ [x]))
  | _ => Throw TypeError
  end.

End Js.

Import Js.

(** ** What the two files take from outside *)

(** The language environment.  [assign_global x] is what the assignment
    [x = e] to an identifier [x] that the file never declares does: [None]
    when a global of that name can be written, [Some e] when the assignment
    throws [e].  The other fields are the bindings of names the files call
    without defining them: [None] where the name is unbound. *)
Record Host : Type := {
  assign_global : string -> option exn;
  global_length : option (value -> js Z);
  global_int : option (value -> js value);
  String_strip : option (string -> string);
  String_endWith : option (string -> string -> bool)
}.

(** ECMAScript as a module of Node.js finds it: a class body is strict, so
    assigning to an undeclared identifier throws ReferenceError; there is no
    global [int] or [length], and a string has neither [strip] nor
    [endWith]. *)
Definition node_host : Host := {|
  assign_global := fun _ => Some ReferenceError;
  global_length := None;
  global_int := None;
  String_strip := None;
  String_endWith := None
|}.

(** The soup adapter ([scholar_soup.js]): [make_soup html] is the tree,
    [soup_find node name attrs] is [node.find(name, attrs)], the first
    matching node or [undefined], and [soup_findAll node arg] is
    [node.findAll(arg)], an array of nodes or of text fragments, or
    [undefined]. *)
Record Soup : Type := {
  make_soup : string -> value;
  soup_find : value -> value -> value -> js value;
  soup_findAll : value -> value -> js (option (list value))
}.

(** ** The article record *)

Record Article : Type := {
  title : value;
  url : value;
  url_pdf : value;
  year : value;
  num_citations : value;
  url_citations : value;
  cluster_id : value;
  num_versions : value;
  url_versions : value
}.

(** Modelled from the spec: [ScholarArticle()] of [scholar_article.js],
    which is not among the sources.  A record "created fresh per result
    container" has every optional field unset and [cluster_id] an empty
    sequence. *)
Definition ScholarArticle : Article := {|
  title := VUndefined;
  url := VUndefined;
  url_pdf := VUndefined;
  year := VUndefined;
  num_citations := VUndefined;
  url_citations := VUndefined;
  cluster_id := VArr [];
  num_versions := VUndefined;
  url_versions := VUndefined
|}.

Definition set_title (v : value) (a : Article) : Article :=
  {| title := v; url := url a; url_pdf := url_pdf a; year := year a;
     num_citations := num_citations a; url_citations := url_citations a;
     cluster_id := cluster_id a; num_versions := num_versions a;
     url_versions := url_versions a |}.

Definition set_url (v : value) (a : Article) : Article :=
  {| title := title a; url := v; url_pdf := url_pdf a; year := year a;
     num_citations := num_citations a; url_citations := url_citations a;
     cluster_id := cluster_id a; num_versions := num_versions a;
     url_versions := url_versions a |}.

Definition set_url_pdf (v : value) (a : Article) : Article :=
  {| title := title a; url := url a; url_pdf := v; year := year a;
     num_citations := num_citations a; url_citations := url_citations a;
     cluster_id := cluster_id a; num_versions := num_versions a;
     url_versions := url_versions a |}.

Definition set_year (v : value) (a : Article) : Article :=
  {| title := title a; url := url a; url_pdf := url_pdf a; year := v;
     num_citations := num_citations a; url_citations := url_citations a;
     cluster_id := cluster_id a; num_versions := num_versions a;
     url_versions := url_versions a |}.

Definition set_num_citations (v : value) (a : Article) : Article :=
  {| title := title a; url := url a; url_pdf := url_pdf a; year := year a;
     num_citations := v; url_citations := url_citations a;
     cluster_id := cluster_id a; num_versions := num_versions a;
     url_versions := url_versions a |}.

Definition set_url_citations (v : value) (a : Article) : Article :=
  {| title := title a; url := url a; url_pdf := url_pdf a; year := year a;
     num_citations := num_citations a; url_citations := v;
     cluster_id := cluster_id a; num_versions := num_versions a;
     url_versions := url_versions a |}.

Definition set_cluster_id (v : value) (a : Article) : Article :=
  {| title := title a; url := url a; url_pdf := url_pdf a; year := year a;
     num_citations := num_citations a; url_citations := url_citations a;
     cluster_id := v; num_versions := num_versions a;
     url_versions := url_versions a |}.

Definition set_num_versions (v : value) (a : Article) : Article :=
  {| title := title a; url := url a; url_pdf := url_pdf a; year := year a;
     num_citations := num_citations a; url_citations := url_citations a;
     cluster_id := cluster_id a; num_versions := v;
     url_versions := url_versions a |}.

Definition set_url_versions (v : value) (a : Article) : Article :=
  {| title := title a; url := url a; url_pdf := url_pdf a; year := year a;
     num_citations := num_citations a; url_citations := url_citations a;
     cluster_id := cluster_id a; num_versions := num_versions a;
     url_versions := v |}.

(** ** The parser instance *)

(** The fields the constructor sets, and the two callbacks
    [handle_article] and [handle_numResults] as the sequences of their
    invocations, oldest first. *)
Record Parser : Type := {
  soup : value;
  article : option Article;
  site : string;
  year_pattern : string;
  emitted : list Article;
  reported : list value
}.

Definition set_soup (v : value) (p : Parser) : Parser :=
  {| soup := v; article := article p; site := site p;
     year_pattern := year_pattern p; emitted := emitted p;
     reported := reported p |}.

Definition set_article (a : Article) (p : Parser) : Parser :=
  {| soup := soup p; article := Some a; site := site p;
     year_pattern := year_pattern p; emitted := emitted p;
     reported := reported p |}.

(** [this.handle_article(article)]. *)
Definition handle_article (a : Article) (p : Parser) : Parser :=
  {| soup := soup p; article := article p; site := site p;
     year_pattern := year_pattern p; emitted := emitted p ++ [a];
     reported := reported p |}.

(** [this.handle_numResults(numResults)]. *)
Definition handle_numResults (n : value) (p : Parser) : Parser :=
  {| soup := soup p; article := article p; site := site p;
     year_pattern := year_pattern p; emitted := emitted p;
     reported := reported p ++ [n] |}.

(** The string that the literal ['\b(?:20|19)\d{2}\b'] denotes: in a string
    literal [\b] is the backspace character and [\d] is the letter d. *)
Definition year_source : string :=
  String (ascii_of_nat 8) ("(?:20|19)d{2}" ++ String (ascii_of_nat 8) "").

(** [new ScholarArticleParser(site)], with [conf_site] for
    [ScholarConf.SCHOLAR_SITE]: [site || conf_site] takes the configured
    value when [site] is missing or empty.  The pattern is stored in the
    property [year]. *)
Definition new_ScholarArticleParser (conf_site : string)
    (site_arg : option string) : js Parser :=
  Ret {| soup := VUndefined;
         article := None;
         site := match site_arg with
                 | Some s => if s =? "" then conf_site else s
                 | None => conf_site
                 end;
         year_pattern := year_source;
         emitted := [];
         reported := [] |}.

(** [new ScholarArticleParser_120201()]: the constructor of the derived
    class has an empty body and never calls [super()]. *)
Definition new_ScholarArticleParser_120201 : js Parser :=
  Throw ReferenceError.

(** ** Calls into the host and the adapter *)

(** [x = e] for an identifier [x] that no [let], [var] or parameter of the
    file declares: [name], [attrs], [string], [part]. *)
Definition assign (h : Host) (x : string) : js unit :=
  match assign_global h x with
  | Some e => Throw e
  | None => Ret tt
  end.

(** [length(v)] and [int(v)]: an unbound identifier throws when it is
    read. *)
Definition call_length (h : Host) (v : value) : js Z :=
  match global_length h with
  | Some f => f v
  | None => Throw ReferenceError
  end.

Definition call_int (h : Host) (v : value) : js value :=
  match global_int h with
  | Some f => f v
  | None => Throw ReferenceError
  end.

(** [recv.strip()] and [recv.endWith(suffix)]. *)
Definition call_strip (h : Host) (recv : value) : js value :=
  match recv, String_strip h with
  | VStr s, Some f => Ret (VStr (f s))
  | _, _ => Throw TypeError
  end.

Definition call_endWith (h : Host) (recv : value) (suffix : string)
  : js bool :=
  match recv, String_endWith h with
  | VStr s, Some f => Ret (f s suffix)
  | _, _ => Throw TypeError
  end.

(** [recv.find(name, attrs)] and [recv.findAll(arg)]: methods of the nodes
    of the adapter, which are objects. *)
Definition call_find (sp : Soup) (recv name attrs : value) : js value :=
  match recv with
  | VObj _ => soup_find sp recv name attrs
  | _ => Throw TypeError
  end.

Definition call_findAll (sp : Soup) (recv arg : value)
  : js (option (list value)) :=
  match recv with
  | VObj _ => soup_findAll sp recv arg
  | _ => Throw TypeError
  end.

Definition array_or_undefined (r : option (list value)) : value :=
  match r with
  | Some l => VArr l
  | None => VUndefined
  end.

(** [this.m(args)] for a method [m] that the class declares [static]
    ([_tag_hasClass], [_as_integer]): an instance has no property [m], so
    once the arguments are evaluated the call throws. *)
Definition call_static_on_instance {A : Type} (args : js A) : js value :=
  args ;;; Throw TypeError.

(** [this.year_re.findAll(..)]: the constructor stores the pattern in
    [this.year]; [this.year_re] is [undefined] and has no members. *)
Definition call_year_re_findAll : js (list value) :=
  member_base VUndefined ;;; Ret [].

(** ** Helpers of the base class *)

(** [static _as_integer(obj)]: [catch (SyntaxError)] binds the exception to
    a variable of that name, whatever the exception is. *)
Definition _as_integer (h : Host) (obj : value) : js value :=
  try_catch_all (call_int h obj) VUndefined.

(** [_path2url(path)] on a string. *)
Definition _path2url (this_site : string) (path : string) : string :=
  if prefix "http://" path then path
  else
    let path := if negb (prefix "/" path) then "/" ++ path else path in
    this_site ++ path.

(** [this._path2url(v)] on any value: [path.startsWith] exists on strings
    only. *)
Definition call_path2url (this_site : string) (v : value) : js value :=
  match v with
  | VStr s => Ret (VStr (_path2url this_site s))
  | _ => Throw TypeError
  end.

(** [_strip_urlArg(url, arg)]. *)
Definition _strip_urlArg (h : Host) (url arg : value) : js value :=
  parts <- split url (Some "?"%char) (Some 1%nat) ;;
  n <- call_length h parts ;;
  if negb (n =? 2)%Z then Ret url
  else
    p1 <- get parts "1" ;;
    segs <- split p1 (Some "&"%char) None ;;
    result <- for_each (for_in segs)
                (fun part result =>
                   assign h "part" ;;;
                   b <- startsWith (VStr part) (to_string arg ++ "=") ;;
                   if negb b then Ret (result ++ [VStr part])%list
                   else Ret result)
                [] ;;
    p0 <- get parts "0" ;;
    joined <- join (VArr result) "&" ;;
    Ret (VStr (to_string p0 ++ "?" ++ to_string joined)).

(** ** Link parsing *)

(** The body of the loop of [_parse_links], for one value of [tag]. *)
Definition links_body (h : Host) (this_site : string) (tag : value)
    (a : Article) : js Article :=
  own <- hasOwnProperty tag "name" ;;
  if negb own then Ret a
  else
    nm <- get tag "name" ;;
    skip <- (if negb (loose_eq_name nm "a") then Ret true
             else hr <- get tag "href" ;; Ret (nullish hr)) ;;
    if skip then Ret a
    else
      hr <- get tag "href" ;;
      cites <- startsWith hr "/scholar?cites" ;;
      a <- (if cites then
              own_s <- hasOwnProperty tag "string" ;;
              cited <- (if own_s then
                          s <- get tag "string" ;; startsWith s "Cited by"
                        else Ret false) ;;
              a <- (if cited then
                      n <- call_static_on_instance
                             (s <- get tag "string" ;;
                              ws <- split s None None ;;
                              get ws "-1") ;;
                      Ret (set_num_citations n a)
                    else Ret a) ;;
              u <- call_path2url this_site hr ;;
              stripped <- _strip_urlArg h (VStr "num") u ;;
              let a := set_url_citations stripped a in
              q <- split (url_citations a) (Some "?"%char) (Some 1%nat) ;;
              args <- get q "1" ;;
              segs <- split args (Some "&"%char) None ;;
              for_each (for_in segs)
                (fun arg a =>
                   is_cites <- startsWith (VStr arg) "cites=" ;;
                   if is_cites then
                     for_each (seq 6 (String.length arg - 6))
                       (fun i a =>
                          ch <- get (VStr arg) (string_of_nat i) ;;
                          ids <- push (cluster_id a) ch ;;
                          Ret (set_cluster_id ids a))
                       a
                   else Ret a)
                a
            else Ret a) ;;
      cluster <- startsWith hr "/scholar?cluster" ;;
      if cluster then
        own_s <- hasOwnProperty tag "string" ;;
        all <- (if own_s then
                  s <- get tag "string" ;; startsWith s "All "
                else Ret false) ;;
        a <- (if all then
                n <- call_static_on_instance
                       (s <- get tag "string" ;;
                        ws <- split s None None ;;
                        get ws "1") ;;
                Ret (set_num_versions n a)
              else Ret a) ;;
        u <- call_path2url this_site hr ;;
        stripped <- _strip_urlArg h (VStr "num") u ;;
        Ret (set_url_versions stripped a)
      else Ret a.

(** [_parse_links(span)]: [tag] ranges over the keys of [span]. *)
Definition _parse_links (h : Host) (this_site : string) (span : value)
    (a : Article) : js Article :=
  for_each (for_in span) (fun tag a => links_body h this_site (VStr tag) a) a.

(** ** Container extraction, one implementation per layout *)

(** [_parse_article(div)] is the method a layout overrides.  It assigns
    [this.article] and reads the site; its result here is the record it
    leaves in [this.article]. *)
Class Layout : Type := {
  _parse_article : Host -> Soup -> Parser -> value -> js Article
}.

(** The body of the loop of [ScholarArticleParser._parse_article].
    [tag['h3', 'a']] is [tag['a']] and [tag['h3', 'a', 'href']] is
    [tag['href']]; [findAll(string = true)] assigns the undeclared [string]
    and passes [true]. *)
Definition article_body (h : Host) (sp : Soup) (this_site : string)
    (tag : value) (a : Article) : js Article :=
  own <- hasOwnProperty tag "name" ;;
  if negb own then Ret a
  else
    nm <- get tag "name" ;;
    is_title <- (if loose_eq_name nm "div" then
                   c <- call_static_on_instance (Ret (tag, "gs_rt")) ;;
                   if truthy c then
                     h3 <- get tag "h3" ;;
                     if truthy h3 then
                       lnk <- get tag "a" ;; Ret (truthy lnk)
                     else Ret false
                   else Ret false
                 else Ret false) ;;
    a <- (if is_title then
            lnk <- get tag "a" ;;
            member_base lnk ;;;
            assign h "string" ;;;
            frags <- call_findAll sp lnk (VBool true) ;;
            t <- join (array_or_undefined frags) "" ;;
            let a := set_title t a in
            hr <- get tag "href" ;;
            u <- call_path2url this_site hr ;;
            let a := set_url u a in
            pdf <- call_endWith h (url a) ".pdf" ;;
            if pdf then Ret (set_url_pdf (url a) a) else Ret a
          else Ret a) ;;
    nm <- get tag "name" ;;
    if loose_eq_name nm "font" then
      for_each (for_in tag)
        (fun key a =>
           let tag2 := VStr key in
           own2 <- hasOwnProperty tag2 "name" ;;
           if negb own2 then Ret a
           else
             nm2 <- get tag2 "name" ;;
             is_links <- (if loose_eq_name nm2 "span" then
                            c <- call_static_on_instance
                                   (Ret (tag2, "gs_f1")) ;;
                            Ret (truthy c)
                          else Ret false) ;;
             if is_links then _parse_links h this_site tag2 a else Ret a)
        a
    else Ret a.

#[export] Instance ScholarArticleParser : Layout := {
  _parse_article h sp p div :=
    for_each (for_in div)
      (fun tag a => article_body h sp (site p) (VStr tag) a)
      ScholarArticle
}.

(** The body of the loop of [ScholarArticleParser_120201._parse_article].
    [tag['a', 'href']] is [tag['href']]. *)
Definition article_body_120201 (h : Host) (sp : Soup) (this_site : string)
    (tag : value) (a : Article) : js Article :=
  own <- hasOwnProperty tag "name" ;;
  if negb own then Ret a
  else
    nm <- get tag "name" ;;
    is_title <- (if loose_eq_name nm "h3" then
                   c <- call_static_on_instance (Ret (tag, "gs_rt")) ;;
                   if truthy c then
                     lnk <- get tag "a" ;; Ret (truthy lnk)
                   else Ret false
                 else Ret false) ;;
    a <- (if is_title then
            lnk <- get tag "a" ;;
            member_base lnk ;;;
            assign h "string" ;;;
            frags <- call_findAll sp lnk (VBool true) ;;
            t <- join (array_or_undefined frags) "" ;;
            let a := set_title t a in
            t <- join (title a) "" ;;
            let a := set_title t a in
            hr <- get tag "href" ;;
            u <- call_path2url this_site hr ;;
            let a := set_url u a in
            pdf <- call_endWith h (url a) ".pdf" ;;
            if pdf then Ret (set_url_pdf (url a) a) else Ret a
          else Ret a) ;;
    nm <- get tag "name" ;;
    is_byline <- (if loose_eq_name nm "div" then
                    c <- call_static_on_instance (Ret (tag, "gs_a")) ;;
                    Ret (truthy c)
                  else Ret false) ;;
    a <- (if is_byline then
            years <- call_year_re_findAll ;;
            Ret (set_year match years with
                          | y :: _ => y
                          | [] => VUndefined
                          end a)
          else Ret a) ;;
    nm <- get tag "name" ;;
    is_links <- (if loose_eq_name nm "div" then
                   c <- call_static_on_instance (Ret (tag, "gs_f1")) ;;
                   Ret (truthy c)
                 else Ret false) ;;
    if is_links then _parse_links h this_site tag a else Ret a.

#[export] Instance ScholarArticleParser_120201 : Layout := {
  _parse_article h sp p div :=
    for_each (for_in div)
      (fun tag a => article_body_120201 h sp (site p) (VStr tag) a)
      ScholarArticle
}.

(** ** The pipeline of the base class *)

(** [_clean_article()]. *)
Definition _clean_article (h : Host) (p : Parser) : js Parser :=
  match article p with
  | None => Throw TypeError
  | Some a =>
      if truthy (title a) then
        t <- call_strip h (title a) ;;
        Ret (set_article (set_title t a) p)
      else Ret p
  end.

(** [_parse_globals()]. *)
Definition _parse_globals (h : Host) (sp : Soup) (p : Parser) : js Parser :=
  member_base (soup p) ;;;
  assign h "name" ;;;
  assign h "attrs" ;;;
  tag <- call_find sp (soup p) (VStr "div")
           (VObj [("id", VStr "gs_ab_md")]) ;;
  if nullish tag then Ret p
  else
    assign h "string" ;;;
    raw_text <- call_findAll sp tag (VBool true) ;;
    match raw_text with
    | Some (first :: _) =>
        try_catch_all
          (ws <- split first None None ;;
           numResults <- get ws "1" ;;
           numResults <- split numResults (Some ","%char) (Some 0%nat) ;;
           numResults <- call_int h numResults ;;
           Ret (handle_numResults numResults p))
          p
    | _ => Ret p
    end.

(** The body of the loop of [parse], for one value of [div]. *)
Definition parse_result `{Layout} (h : Host) (sp : Soup) (div : value)
    (p : Parser) : js Parser :=
  a <- _parse_article h sp p div ;;
  p <- _clean_article h (set_article a p) ;;
  match article p with
  | None => Throw TypeError
  | Some a => if truthy (title a) then Ret (handle_article a p) else Ret p
  end.

(** [parse(html)].  [this._tag_resultsChecker] is a static method read on
    the instance, hence [undefined]; [div] ranges over the keys of the
    array that [findAll] returns. *)
Definition parse `{Layout} (h : Host) (sp : Soup) (html : string)
    (p : Parser) : js Parser :=
  let p := set_soup (make_soup sp html) p in
  p <- _parse_globals h sp p ;;
  member_base (soup p) ;;;
  divs <- call_findAll sp (soup p) VUndefined ;;
  for_each (for_in (array_or_undefined divs))
    (fun div p => parse_result h sp (VStr div) p) p.

(** ** resolve-url as the specification words it *)

Definition is_letter (c : ascii) : bool :=
  let n := nat_of_ascii c in
  ((65 <=? n)%nat && (n <=? 90)%nat) || ((97 <=? n)%nat && (n <=? 122)%nat).

Fixpoint scheme_tail (s : string) : bool :=
  match s with
  | EmptyString => false
  | String c r => if is_letter c then scheme_tail r else prefix "://" s
  end.

(** "[path] already has a scheme": letters followed by [://]. *)
Definition has_scheme (path : string) : bool :=
  match path with
  | EmptyString => false
  | String c r => is_letter c && scheme_tail r
  end.

Fixpoint drop_slashes (s : string) : string :=
  match s with
  | String "/"%char r => drop_slashes r
  | _ => s
  end.

(** Section 4.3: "if [path] already has a scheme, return unchanged;
    otherwise ensure exactly one leading [/] and prepend the configured
    site base". *)
Definition resolve_url (this_site path : string) : string :=
  if has_scheme path then path
  else this_site ++ "/" ++ drop_slashes path.

(** "Not an anchor, or an anchor lacking an href attribute" is the negation
    of this test. *)
Definition is_anchor_with_href (tag : value) : bool :=
  match get tag "name", get tag "href" with
  | Ret nm, Ret hr => loose_eq_name nm "a" && negb (nullish hr)
  | _, _ => false
  end.

(** ** Sample hosts, nodes and pages *)

Definition is_space (c : ascii) : bool :=
  let n := nat_of_ascii c in
  (n =? 32)%nat || ((9 <=? n)%nat && (n <=? 13)%nat).

Fixpoint ltrim (s : string) : string :=
  match s with
  | String c r => if is_space c then ltrim r else s
  | EmptyString => EmptyString
  end.

Fixpoint rtrim (s : string) : string :=
  match s with
  | EmptyString => EmptyString
  | String c r =>
      let r' := rtrim r in
      if is_space c && (r' =? "") then EmptyString else String c r'
  end.

Definition ends_with (s suffix : string) : bool :=
  (String.length suffix <=? String.length s)%nat &&
  (substring (String.length s - String.length suffix)
     (String.length suffix) s =? suffix).

(** A host that binds every missing name to the function its name
    suggests and lets the undeclared identifiers be assigned: [length] counts
    the elements, [int] reads a decimal integer and throws otherwise,
    [strip] trims white space, [endWith] tests a suffix. *)
Definition lenient_host : Host := {|
  assign_global := fun _ => None;
  global_length :=
    Some (fun v => match v with
                   | VArr xs => Ret (Z.of_nat (List.length xs))
                   | VStr s => Ret (Z.of_nat (String.length s))
                   | _ => Throw TypeError
                   end);
  global_int :=
    Some (fun v => match v with
                   | VStr s => match NilZero.int_of_string s with
                               | Some d => Ret (VNum (Z.of_int d))
                               | None => Throw SyntaxError
                               end
                   | _ => Throw TypeError
                   end);
  String_strip := Some (fun s => rtrim (ltrim s));
  String_endWith := Some ends_with
|}.

(** A layout whose extraction yields the record [a] for every container. *)
Definition constant_layout (a : Article) : Layout :=
  {| _parse_article := fun _ _ _ _ => Ret a |}.

Definition example_site : string := "https://example.com".

Definition cited_by_anchor : value :=
  VObj [("name", VStr "a");
        ("href", VStr "/scholar?cites=12345&num=20");
        ("string", VStr "Cited by 42")].

(** The same anchor without a [string] property. *)
Definition cites_anchor_no_text : value :=
  VObj [("name", VStr "a");
        ("href", VStr "/scholar?cites=12345&num=20")].

Definition links_div : value :=
  VObj [("name", VStr "div");
        ("class", VArr [VStr "gs_fl"]);
        ("contents", VArr [cited_by_anchor])].

Definition byline_text : string :=
  "J Smith, A Jones - Journal of X, 2019 - publisher.com".

Definition byline_div : value :=
  VObj [("name", VStr "div");
        ("class", VArr [VStr "gs_a"]);
        ("text", VStr byline_text)].

Definition title_link : value :=
  VObj [("name", VStr "a"); ("href", VStr "/papers/big-data.pdf")].

(** The title element of the base layout and of layout 120201. *)
Definition title_div : value :=
  VObj [("name", VStr "div");
        ("class", VArr [VStr "gs_rt"]);
        ("h3", VObj [("name", VStr "h3"); ("a", title_link)]);
        ("a", title_link);
        ("href", VStr "/papers/big-data.pdf")].

Definition title_h3 : value :=
  VObj [("name", VStr "h3");
        ("class", VArr [VStr "gs_rt"]);
        ("a", title_link);
        ("href", VStr "/papers/big-data.pdf")].

Definition result_container : value :=
  VObj [("name", VStr "div");
        ("class", VArr [VStr "gs_r"]);
        ("contents", VArr [title_div; title_h3; byline_div; links_div])].

Definition stats_node : value :=
  VObj [("name", VStr "div"); ("id", VStr "gs_ab_md")].

(** An adapter for a page with the global-stats node, whose first text
    fragment is "About 1,234 results (0.04 sec)", and one result
    container. *)
Definition sample_soup : Soup := {|
  make_soup := fun html => VObj [("html", VStr html)];
  soup_find := fun _ _ _ => Ret stats_node;
  soup_findAll := fun _ arg =>
    match arg with
    | VBool true => Ret (Some [VStr "About 1,234 results (0.04 sec)"])
    | _ => Ret (Some [result_container])
    end
|}.

Definition sample_parser : Parser := {|
  soup := VUndefined;
  article := None;
  site := example_site;
  year_pattern := year_source;
  emitted := [];
  reported := []
|}.

(** ** The static helpers of the base class *)

(** [typeof v]. *)
Definition typeof (v : value) : string :=
  match v with
  | VUndefined => "undefined"
  | VBool _ => "boolean"
  | VNum _ => "number"
  | VStr _ => "string"
  | VNull | VArr _ | VObj _ => "object"
  end.

(** The string-named members of the built-in prototypes that an array and
    a plain object inherit: what [k in v] finds beyond the own properties
    of [v]. *)
Record Prototypes : Type := {
  Array_prototype_has : string -> bool;
  Object_prototype_has : string -> bool
}.

(** [k in v]: the right operand must be an object; the own properties of an
    array are its indices and [length]. *)
Definition has_property (pr : Prototypes) (v : value) (k : string) : js bool :=
  match v with
  | VArr xs =>
      Ret ((k =? "length")
           || match index_of_key (List.length xs) k with
              | Some _ => true | None => false end
           || Array_prototype_has pr k
           || Object_prototype_has pr k)
  | VObj props =>
      Ret (match assoc k props with Some _ => true | None => false end
           || Object_prototype_has pr k)
  | _ => Throw TypeError
  end.

(** [static _tag_hasClass(tag, klass)].  [object] is an identifier that the
    file never declares: [object_binding] is its value, [None] where it is
    unbound and reading it throws.  The values of [typeof] are not numeric
    strings, so the comparison is [loose_eq_name]. *)
Definition _tag_hasClass (object_binding : option value) (pr : Prototypes)
    (tag : value) (klass : string) : js bool :=
  c <- get tag "class" ;;
  let result := if truthy c then c else VArr [] in
  obj <- match object_binding with
         | Some v => Ret v
         | None => Throw ReferenceError
         end ;;
  result <- (if negb (loose_eq_name obj (typeof result))
             then split result None None
             else Ret result) ;;
  has_property pr result klass.

(** [static _tag_resultsChecker(tag)]: [&&] gives [false] without calling
    [_tag_hasClass] when the name is not 'div'. *)
Definition _tag_resultsChecker (object_binding : option value)
    (pr : Prototypes) (tag : value) : js bool :=
  nm <- get tag "name" ;;
  if loose_eq_name nm "div" then _tag_hasClass object_binding pr tag "gs_r"
  else Ret false.

(** Whether [s] begins with a decimal digit, as every array index does. *)
Definition starts_with_digit (s : string) : bool :=
  match s with
  | String c _ =>
      let n := nat_of_ascii c in ((48 <=? n)%nat && (n <=? 57)%nat)
  | EmptyString => false
  end.

(** ** More sample values *)

(** The members of [Array.prototype] and [Object.prototype] in
    ECMAScript 2023. *)
Definition es2023_prototypes : Prototypes := {|
  Array_prototype_has := fun k =>
    existsb (String.eqb k)
      ["length"; "constructor"; "at"; "concat"; "copyWithin"; "fill"; "find";
       "findIndex"; "findLast"; "findLastIndex"; "lastIndexOf"; "pop"; "push";
       "reverse"; "shift"; "unshift"; "slice"; "sort"; "splice"; "includes";
       "indexOf"; "join"; "keys"; "entries"; "values"; "forEach"; "filter";
       "flat"; "flatMap"; "map"; "every"; "some"; "reduce"; "reduceRight";
       "toLocaleString"; "toString"; "toReversed"; "toSorted"; "toSpliced";
       "with"];
  Object_prototype_has := fun k =>
    existsb (String.eqb k)
      ["constructor"; "__defineGetter__"; "__defineSetter__";
       "hasOwnProperty"; "__lookupGetter__"; "__lookupSetter__";
       "isPrototypeOf"; "propertyIsEnumerable"; "toString"; "valueOf";
       "__proto__"; "toLocaleString"]
|}.

(** A result container whose class attribute is one string. *)
Definition container_string_class : value :=
  VObj [("name", VStr "div"); ("class", VStr "gs_r")].

Definition cluster_anchor_no_text : value :=
  VObj [("name", VStr "a");
        ("href", VStr "/scholar?cluster=99&num=5")].

Definition other_anchor : value :=
  VObj [("name", VStr "a");
        ("href", VStr "/citations?user=abc");
        ("string", VStr "J Smith")].

(** An adapter for a page without a global-stats node and without result
    containers. *)
Definition empty_soup : Soup := {|
  make_soup := fun html => VObj [("html", VStr html)];
  soup_find := fun _ _ _ => Ret VUndefined;
  soup_findAll := fun _ _ => Ret (Some [])
|}.

(** * Properties *)

(** ** Keys are strings, and a string owns no [name] *)

Section KeyFacts.

Lemma string_of_nat_not_name (i : nat) : (string_of_nat i =? "name") = false.
Proof.
  unfold string_of_nat, NilZero.string_of_uint.
  destruct (Nat.to_uint i); reflexivity.
Qed.

Lemma index_of_key_name (len : nat) : index_of_key len "name" = None.
Proof.
  unfold index_of_key.
  generalize 0%nat.
  induction len as [|len IH]; intros start; simpl.
  - reflexivity.
  - rewrite string_of_nat_not_name. apply IH.
Qed.

Lemma string_owns_no_name (s : string) :
  hasOwnProperty (VStr s) "name" = Ret false.
Proof.
  simpl. now rewrite index_of_key_name.
Qed.

Lemma array_owns_no_name (xs : list value) :
  hasOwnProperty (VArr xs) "name" = Ret false.
Proof.
  simpl. now rewrite index_of_key_name.
Qed.

(** A loop whose body leaves the state as it is leaves the state as it
    is. *)
Lemma for_each_unchanged {A S : Type} (body : A -> S -> js S) (xs : list A) :
  (forall x s, body x s = Ret s) ->
  forall s, for_each xs body s = Ret s.
Proof.
  intros Hbody. induction xs as [|x xs IH]; intros s; simpl.
  - reflexivity.
  - rewrite Hbody. simpl. apply IH.
Qed.

End KeyFacts.

(** ** Link parsing *)

Section Links.

Variable h : Host.
Variable this_site : string.

(** On a key the loop body stops at its first test. *)
Lemma links_body_on_key (k : string) (a : Article) :
  links_body h this_site (VStr k) a = Ret a.
Proof.
  unfold links_body. rewrite string_owns_no_name. reflexivity.
Qed.

(** [_parse_links] changes no field and throws nothing, whatever [span]
    is. *)
Lemma parse_links_unchanged (span : value) (a : Article) :
  _parse_links h this_site span a = Ret a.
Proof.
  unfold _parse_links.
  apply for_each_unchanged. intros k a'. apply links_body_on_key.
Qed.

(** C10: during link parsing, a tag that is not an anchor, or that is an
    anchor without an href attribute, is skipped: the loop body returns the
    record it was given, no field modified, and throws nothing. *)
Theorem links_body_skips_non_anchor (tag : value) (a : Article) :
  nullish tag = false ->
  is_anchor_with_href tag = false ->
  links_body h this_site tag a = Ret a.
Proof.
  intros Hdef Hskip. unfold links_body.
  destruct tag as [ | | b | n | s | xs | props ]; try discriminate Hdef.
  - reflexivity.
  - reflexivity.
  - now rewrite string_owns_no_name.
  - now rewrite array_owns_no_name.
  - unfold is_anchor_with_href in Hskip. simpl in Hskip. simpl.
    destruct (assoc "name" props) as [nm|]; simpl; [|reflexivity].
    destruct (loose_eq_name nm "a"); simpl in *; [|reflexivity].
    apply negb_false_iff in Hskip. now rewrite Hskip.
Qed.

End Links.

(** The skipped tags of C10 at a [span] element and at an anchor that has
    no href. *)
Lemma links_body_skips_non_anchor_witness :
  (nullish byline_div = false /\
   is_anchor_with_href byline_div = false /\
   links_body node_host example_site byline_div ScholarArticle
   = Ret ScholarArticle) /\
  links_body node_host example_site (VObj [("name", VStr "a")]) ScholarArticle
  = Ret ScholarArticle.
Proof.
  split.
  - split; [reflexivity | split; [reflexivity|]].
    apply (links_body_skips_non_anchor node_host example_site byline_div);
      reflexivity.
  - apply (links_body_skips_non_anchor node_host example_site
             (VObj [("name", VStr "a")])); reflexivity.
Defined.

(** C2, at the anchor of the specification (href
    [/scholar?cites=12345&num=20], text "Cited by 42"): in every host,
    [_parse_links] on the container of the anchor returns the record with
    [num_citations] and [url_citations] still unset, because its loop
    variable is a key of the container and not the anchor; and the loop
    body applied to the anchor itself throws TypeError at
    [this._as_integer], which is a static method. *)
Theorem cited_by_anchor_sets_no_citations (h : Host) :
  (exists a,
     _parse_links h example_site links_div ScholarArticle = Ret a /\
     num_citations a = VUndefined /\
     url_citations a = VUndefined) /\
  links_body h example_site cited_by_anchor ScholarArticle = Throw TypeError.
Proof.
  split.
  - exists ScholarArticle. rewrite parse_links_unchanged. now repeat split.
  - reflexivity.
Qed.

(** Once [this.article['url_citations']] is assigned, the loop body cannot
    complete: [split('?', 1)] has one piece, so [args] is [undefined]. *)
Lemma links_body_cites_never_returns (h : Host) (a : Article) :
  links_body h example_site cites_anchor_no_text ScholarArticle <> Ret a.
Proof.
  unfold links_body, cites_anchor_no_text. simpl.
  unfold _strip_urlArg. simpl. unfold call_length.
  destruct (global_length h) as [f|]; simpl; [|discriminate].
  destruct (f _) as [n|e]; simpl; [|discriminate].
  destruct (n =? 2)%Z; simpl; discriminate.
Qed.

(** C5, at the same anchor: in every host [_parse_links] returns the record
    with [cluster_id] still the empty sequence; no character of the value
    of [cites=] is appended. *)
Theorem cited_by_anchor_leaves_cluster_id_empty (h : Host) :
  exists a,
    _parse_links h example_site links_div ScholarArticle = Ret a /\
    cluster_id a = VArr [].
Proof.
  exists ScholarArticle. split.
  - apply parse_links_unchanged.
  - reflexivity.
Qed.

(** ** [_strip_urlArg] *)

(** [url.split('?', 1)] never has a second piece. *)
Lemma split_limit_one (s : string) (c : ascii) :
  exists piece, split (VStr s) (Some c) (Some 1%nat) = Ret (VArr [VStr piece]).
Proof.
  unfold split.
  assert (Hne : exists x r, split_on c s = x :: r).
  { destruct s as [|a s']; simpl.
    - now exists EmptyString, [].
    - destruct (Ascii.eqb a c).
      + now exists EmptyString, (split_on c s').
      + destruct (split_on c s') as [|x r]; eauto. }
  destruct Hne as (x & r & ->). now exists x.
Qed.

(** In every host, and for every url and argument name, [_strip_urlArg]
    returns the url as it is, or throws. *)
Lemma strip_urlArg_unchanged_or_throws (h : Host) (url arg : string) :
  _strip_urlArg h (VStr url) (VStr arg) = Ret (VStr url) \/
  exists e, _strip_urlArg h (VStr url) (VStr arg) = Throw e.
Proof.
  unfold _strip_urlArg.
  destruct (split_limit_one url "?") as (piece & ->). simpl.
  destruct (call_length h (VArr [VStr piece])) as [n|e]; simpl; [|eauto].
  destruct (n =? 2)%Z; simpl; eauto.
Qed.

(** C3, at the example of the specification: for no host does
    [_strip_urlArg("https://x/y?num=5&cites=9999", "num")] return
    "https://x/y?cites=9999".  Where [length] is unbound the call throws
    ReferenceError; where [length] counts the elements the url is returned
    with [num=5] still in it. *)
Theorem strip_urlArg_example_not_stripped :
  (forall h : Host,
     _strip_urlArg h (VStr "https://x/y?num=5&cites=9999") (VStr "num")
     <> Ret (VStr "https://x/y?cites=9999")) /\
  _strip_urlArg node_host (VStr "https://x/y?num=5&cites=9999") (VStr "num")
  = Throw ReferenceError /\
  _strip_urlArg lenient_host (VStr "https://x/y?num=5&cites=9999") (VStr "num")
  = Ret (VStr "https://x/y?num=5&cites=9999").
Proof.
  split; [|split; reflexivity].
  intros h.
  destruct (strip_urlArg_unchanged_or_throws h
              "https://x/y?num=5&cites=9999" "num") as [-> | (e & ->)];
    discriminate.
Qed.

(** ** [_path2url] *)

Section Path2Url.

Lemma prefix_app_r (p s q : string) :
  prefix p s = true -> prefix p (s ++ q) = true.
Proof.
  revert s. induction p as [|c p IH]; intros s Hp.
  - now destruct (s ++ q).
  - destruct s as [|d s]; [discriminate|]. simpl in *.
    destruct (ascii_dec c d); [now apply IH | discriminate].
Qed.

Lemma prefix_app_same (s p q : string) :
  prefix (s ++ p) (s ++ q) = prefix p q.
Proof.
  induction s as [|c s IH]; simpl.
  - reflexivity.
  - destruct (ascii_dec c c) as [_|Hne]; [exact IH | now elim Hne].
Qed.

Variable this_site : string.

Lemma path2url_http (path : string) :
  prefix "http://" path = true -> _path2url this_site path = path.
Proof.
  intros Hp. unfold _path2url. now rewrite Hp.
Qed.

Lemma path2url_relative (path : string) :
  prefix "http://" path = false ->
  _path2url this_site path
  = this_site ++ (if prefix "/" path then path else "/" ++ path).
Proof.
  intros Hp. unfold _path2url. rewrite Hp.
  now destruct (prefix "/" path).
Qed.

(** C9: when the site base begins with [http://], [_path2url] is
    idempotent: applying it to its own result gives that result. *)
Theorem path2url_idempotent (path : string) :
  prefix "http://" this_site = true ->
  _path2url this_site (_path2url this_site path) = _path2url this_site path.
Proof.
  intros Hsite.
  destruct (prefix "http://" path) eqn:Hp.
  - rewrite (path2url_http path Hp). exact (path2url_http path Hp).
  - rewrite (path2url_relative path Hp).
    apply path2url_http. now apply prefix_app_r.
Qed.

End Path2Url.

Lemma path2url_idempotent_witness :
  prefix "http://" "http://scholar.google.com" = true /\
  _path2url "http://scholar.google.com"
    (_path2url "http://scholar.google.com" "scholar?q=coq")
  = _path2url "http://scholar.google.com" "scholar?q=coq".
Proof.
  split; [reflexivity|].
  apply (path2url_idempotent "http://scholar.google.com" "scholar?q=coq").
  reflexivity.
Defined.

(** With a site base under [https://] a second application prepends the
    base again. *)
Remark path2url_https_site_not_idempotent :
  _path2url example_site (_path2url example_site "path")
  = "https://example.com/https://example.com/path".
Proof. reflexivity. Qed.

(** C4 as stated fails: [_path2url] is not resolve-url.  A path under
    [https://] has a scheme and is not returned unchanged, and a path with
    two leading slashes keeps both. *)
Lemma path2url_is_not_resolve_url :
  ~ (forall this_site path : string,
       _path2url this_site path = resolve_url this_site path).
Proof.
  intros Hall.
  specialize (Hall example_site "https://other.com/x").
  vm_compute in Hall. discriminate Hall.
Qed.

Example path2url_https_path :
  has_scheme "https://other.com/x" = true /\
  _path2url example_site "https://other.com/x"
  = "https://example.com/https://other.com/x".
Proof. split; reflexivity. Qed.

Example path2url_double_slash :
  _path2url example_site "//a" = "https://example.com//a" /\
  resolve_url example_site "//a" = "https://example.com/a".
Proof. split; reflexivity. Qed.

(** C4, amended: [_path2url] returns the path unchanged when it begins with
    [http://], the one scheme it tests; otherwise it prepends [/] when the
    path does not begin with [/], keeps the path as it is when it does, and
    prepends the site base, so that the result begins with the site base
    followed by [/].  The two examples of the specification hold. *)
Theorem path2url_by_http_prefix (this_site path : string) :
  (prefix "http://" path = true -> _path2url this_site path = path) /\
  (prefix "http://" path = false -> prefix "/" path = true ->
   _path2url this_site path = this_site ++ path) /\
  (prefix "http://" path = false -> prefix "/" path = false ->
   _path2url this_site path = this_site ++ "/" ++ path) /\
  (prefix "http://" path = false ->
   prefix (this_site ++ "/") (_path2url this_site path) = true) /\
  _path2url "https://example.com" "http://other.com/x" = "http://other.com/x" /\
  _path2url "https://example.com" "path" = "https://example.com/path".
Proof.
  split; [apply path2url_http|].
  split; [intros Hp Hs; rewrite (path2url_relative _ _ Hp); now rewrite Hs|].
  split; [intros Hp Hs; rewrite (path2url_relative _ _ Hp); now rewrite Hs|].
  split; [|split; reflexivity].
  intros Hp. rewrite (path2url_relative _ _ Hp).
  rewrite prefix_app_same.
  destruct (prefix "/" path) eqn:Hs; [exact Hs|].
  simpl. now destruct path.
Qed.

Lemma path2url_by_http_prefix_witness :
  _path2url example_site "http://other.com/x" = "http://other.com/x" /\
  _path2url example_site "/path?a=1" = "https://example.com/path?a=1" /\
  _path2url example_site "path" = "https://example.com/path".
Proof.
  destruct (path2url_by_http_prefix example_site "http://other.com/x")
    as (Hhttp & _).
  destruct (path2url_by_http_prefix example_site "/path?a=1")
    as (_ & Hslash & _).
  destruct (path2url_by_http_prefix example_site "path")
    as (_ & _ & Hbare & _).
  split; [apply Hhttp; reflexivity|].
  split; [apply Hslash; reflexivity | apply Hbare; reflexivity].
Defined.

(** ** Container extraction *)

Section Extraction.

Variable h : Host.
Variable sp : Soup.

Lemma article_body_on_key (this_site k : string) (a : Article) :
  article_body h sp this_site (VStr k) a = Ret a.
Proof.
  unfold article_body. now rewrite string_owns_no_name.
Qed.

Lemma article_body_120201_on_key (this_site k : string) (a : Article) :
  article_body_120201 h sp this_site (VStr k) a = Ret a.
Proof.
  unfold article_body_120201. now rewrite string_owns_no_name.
Qed.

(** Both layouts leave the fresh record in [this.article], whatever the
    container is. *)
Lemma parse_article_fresh (p : Parser) (div : value) :
  _parse_article (Layout := ScholarArticleParser) h sp p div
  = Ret ScholarArticle.
Proof.
  simpl. apply for_each_unchanged. intros k a. apply article_body_on_key.
Qed.

Lemma parse_article_120201_fresh (p : Parser) (div : value) :
  _parse_article (Layout := ScholarArticleParser_120201) h sp p div
  = Ret ScholarArticle.
Proof.
  simpl. apply for_each_unchanged. intros k a.
  apply article_body_120201_on_key.
Qed.

(** C8, at a container whose title link has the href
    [/papers/big-data.pdf]: in every host and with either layout,
    [_parse_article] returns a record whose [url] and [url_pdf] are both
    unset, because its loop variable is a key of the container; and the
    loop body applied to the title element itself throws TypeError at
    [this._tag_hasClass], which is a static method. *)
Theorem title_link_sets_no_url (p : Parser) :
  (exists a,
     _parse_article (Layout := ScholarArticleParser) h sp p result_container
     = Ret a /\ url a = VUndefined /\ url_pdf a = VUndefined) /\
  (exists a,
     _parse_article (Layout := ScholarArticleParser_120201) h sp p
       result_container
     = Ret a /\ url a = VUndefined /\ url_pdf a = VUndefined) /\
  article_body h sp (site p) title_div ScholarArticle = Throw TypeError /\
  article_body_120201 h sp (site p) title_h3 ScholarArticle = Throw TypeError.
Proof.
  split; [|split].
  - exists ScholarArticle. rewrite parse_article_fresh. now repeat split.
  - exists ScholarArticle. rewrite parse_article_120201_fresh.
    now repeat split.
  - split; reflexivity.
Qed.

(** C7, at the byline "J Smith, A Jones - Journal of X, 2019 -
    publisher.com": in every host, [_parse_article] of layout 120201
    returns a record whose [year] is unset; the loop body applied to the
    byline element itself throws TypeError; and the constructor of the
    layout, which never calls [super()], throws ReferenceError. *)
Theorem byline_sets_no_year (p : Parser) :
  (exists a,
     _parse_article (Layout := ScholarArticleParser_120201) h sp p
       result_container
     = Ret a /\ year a = VUndefined) /\
  article_body_120201 h sp (site p) byline_div ScholarArticle
  = Throw TypeError /\
  new_ScholarArticleParser_120201 = Throw ReferenceError.
Proof.
  split.
  - exists ScholarArticle. now rewrite parse_article_120201_fresh.
  - split; reflexivity.
Qed.

End Extraction.

(** ** Global statistics *)

Section Globals.

(** In every host and for every page, [_parse_globals] returns with the
    parser as it was, [handle_numResults] not invoked, or throws. *)
Lemma parse_globals_unchanged_or_throws (h : Host) (sp : Soup) (p : Parser) :
  _parse_globals h sp p = Ret p \/ exists e, _parse_globals h sp p = Throw e.
Proof.
  unfold _parse_globals.
  destruct (member_base (soup p)); simpl; [|eauto].
  destruct (assign h "name"); simpl; [|eauto].
  destruct (assign h "attrs"); simpl; [|eauto].
  destruct (call_find sp (soup p) _ _) as [tag|e]; simpl; [|eauto].
  destruct (nullish tag); [now left|].
  destruct (assign h "string"); simpl; [|eauto].
  destruct (call_findAll sp tag _) as [[[|first rest]|]|e]; simpl; eauto.
  left. unfold try_catch_all.
  destruct first; reflexivity.
Qed.

(** C6, at a page whose global-stats node has the first text fragment
    "About 1,234 results (0.04 sec)": in no host is [handle_numResults]
    invoked, since [split()] without a separator has no second piece.
    Where the undeclared [name] cannot be assigned, [_parse_globals] throws
    ReferenceError outside its [try], and so does [parse]; in the lenient
    host it returns with nothing reported. *)
Theorem stats_count_never_reported :
  let p := set_soup (make_soup sample_soup "<html>") sample_parser in
  (forall h : Host,
     _parse_globals h sample_soup p = Ret p \/
     exists e, _parse_globals h sample_soup p = Throw e) /\
  _parse_globals lenient_host sample_soup p = Ret p /\
  reported p = [] /\
  _parse_globals node_host sample_soup p = Throw ReferenceError /\
  parse (H := ScholarArticleParser) node_host sample_soup "<html>"
    sample_parser
  = Throw ReferenceError.
Proof.
  intros p. split.
  - intros h. apply parse_globals_unchanged_or_throws.
  - repeat split; reflexivity.
Qed.

End Globals.

(** ** The title gate of [parse] *)

Section TitleGate.

Context {L : Layout}.
Variable h : Host.
Variable sp : Soup.

(** Cleanup keeps the callbacks' histories and leaves a record in place. *)
Lemma clean_article_keeps_history (p p' : Parser) :
  _clean_article h p = Ret p' ->
  emitted p' = emitted p /\ exists a, article p' = Some a.
Proof.
  unfold _clean_article.
  destruct (article p) as [a|] eqn:Ha; [|discriminate].
  destruct (truthy (title a)).
  - destruct (call_strip h (title a)) as [t|e]; simpl; [|discriminate].
    intros [= <-]. simpl. eauto.
  - intros [= <-]. eauto.
Qed.

(** The title gate at one step of the loop of [parse], once the extraction
    has yielded the record [a]: if [a] has no title the container is
    skipped, with no error and no callback invocation; if cleanup leaves a
    record with a non-empty title, [handle_article] is invoked with that
    record; and whenever the step completes, [handle_article] has been
    invoked, with the cleaned record, exactly when the title of that record
    is non-empty. *)
Theorem parse_result_title_gate (div : value) (p : Parser) (a : Article) :
  _parse_article h sp p div = Ret a ->
  (truthy (title a) = false ->
   parse_result h sp div p = Ret (set_article a p) /\
   emitted (set_article a p) = emitted p) /\
  (forall p1 a1,
     _clean_article h (set_article a p) = Ret p1 ->
     article p1 = Some a1 ->
     truthy (title a1) = true ->
     parse_result h sp div p = Ret (handle_article a1 p1) /\
     emitted (handle_article a1 p1) = (emitted p ++ [a1])%list) /\
  (forall p',
     parse_result h sp div p = Ret p' ->
     exists a',
       article p' = Some a' /\
       (truthy (title a') = true /\ emitted p' = (emitted p ++ [a'])%list \/
        truthy (title a') = false /\ emitted p' = emitted p)).
Proof.
  intros Hex. unfold parse_result. rewrite Hex. simpl.
  split; [|split].
  - intros Hno. unfold _clean_article. simpl. rewrite Hno. simpl.
    rewrite Hno. now split.
  - intros p1 a1 Hclean Ha1 Htitle. rewrite Hclean. simpl.
    rewrite Ha1, Htitle. split; [reflexivity|].
    destruct (clean_article_keeps_history _ _ Hclean) as [He _].
    simpl. now rewrite He.
  - intros p'.
    destruct (_clean_article h (set_article a p)) as [p1|e] eqn:Hclean;
      simpl; [|discriminate].
    destruct (clean_article_keeps_history _ _ Hclean) as [He [a1 Ha1]].
    rewrite Ha1.
    destruct (truthy (title a1)) eqn:Htitle; intros [= <-]; exists a1; simpl.
    + split; [exact Ha1|]. left. split; [exact Htitle | now rewrite He].
    + split; [exact Ha1|]. right. split; [exact Htitle | exact He].
Qed.

(** Over a whole run of the loop of [parse], the records handed to
    [handle_article] all have a non-empty title. *)
Lemma parse_loop_emits_titled (keys : list string) :
  forall p p',
    for_each keys (fun div p => parse_result h sp (VStr div) p) p = Ret p' ->
    exists recs,
      emitted p' = (emitted p ++ recs)%list /\
      Forall (fun a => truthy (title a) = true) recs.
Proof.
  induction keys as [|k keys IH]; intros p p'; simpl.
  - intros [= <-]. exists []. now rewrite app_nil_r.
  - destruct (parse_result h sp (VStr k) p) as [p1|e] eqn:Hstep;
      simpl; [|discriminate].
    intros Hrest. destruct (IH _ _ Hrest) as (recs & Hrecs & Hall).
    unfold parse_result in Hstep.
    destruct (_parse_article h sp p (VStr k)) as [a|e] eqn:Hex;
      simpl in Hstep; [|discriminate].
    destruct (_clean_article h (set_article a p)) as [p2|e] eqn:Hclean;
      simpl in Hstep; [|discriminate].
    destruct (clean_article_keeps_history _ _ Hclean) as [He [a2 Ha2]].
    rewrite Ha2 in Hstep.
    destruct (truthy (title a2)) eqn:Htitle; injection Hstep as <-.
    + exists (a2 :: recs). split.
      * rewrite Hrecs. simpl. rewrite He. simpl.
        now rewrite <- app_assoc.
      * now constructor.
    + exists recs. split; [|exact Hall].
      rewrite Hrecs. now rewrite He.
Qed.

End TitleGate.

(** A container without a title, with the base layout in Node.js: the step
    completes and nothing is emitted. *)
Lemma parse_result_title_gate_witness :
  parse_result (H := ScholarArticleParser) node_host sample_soup (VStr "0")
    sample_parser
  = Ret (set_article ScholarArticle sample_parser) /\
  emitted (set_article ScholarArticle sample_parser) = emitted sample_parser.
Proof.
  apply (parse_result_title_gate (L := ScholarArticleParser) node_host
           sample_soup (VStr "0") sample_parser ScholarArticle).
  - apply parse_article_fresh.
  - reflexivity.
Defined.

(** A container whose extraction yields the title "  Big Data ": where
    [strip] is bound the record is emitted with the title "Big Data"; in
    Node.js a string has no [strip] and the step throws TypeError. *)
Example titled_record_emitted :
  let a := set_title (VStr "  Big Data ") ScholarArticle in
  (exists p',
     parse_result (H := constant_layout a) lenient_host sample_soup (VStr "0")
       sample_parser = Ret p' /\
     emitted p' = [set_title (VStr "Big Data") ScholarArticle]) /\
  parse_result (H := constant_layout a) node_host sample_soup (VStr "0")
    sample_parser = Throw TypeError.
Proof.
  split; [eexists; split; reflexivity | reflexivity].
Qed.

(** X25: In Node.js no step of the loop of [parse] ever invokes
    [handle_article], whatever the layout: a record with a title stops at
    [strip]. *)
Lemma node_host_never_emits {L : Layout} (sp : Soup) (div : value)
    (p p' : Parser) :
  parse_result node_host sp div p = Ret p' -> emitted p' = emitted p.
Proof.
  unfold parse_result.
  destruct (_parse_article node_host sp p div) as [a|e]; simpl;
    [|discriminate].
  unfold _clean_article. simpl.
  destruct (truthy (title a)) eqn:Htitle.
  - unfold call_strip. simpl.
    destruct (title a); simpl; discriminate.
  - simpl. rewrite Htitle. now intros [= <-].
Qed.

(** With the layouts of the two files no step emits in any host: the
    extracted record is the fresh one. *)
Lemma base_layout_never_emits (h : Host) (sp : Soup) (div : value)
    (p : Parser) :
  parse_result (H := ScholarArticleParser) h sp div p
  = Ret (set_article ScholarArticle p).
Proof.
  unfold parse_result. now rewrite parse_article_fresh.
Qed.

(** ** Further facts about the pipeline *)

(** [_as_integer] never throws: whatever [int] does, [catch] takes the
    exception and [undefined] is returned. *)
Lemma as_integer_never_throws (h : Host) (obj : value) :
  exists v, _as_integer h obj = Ret v.
Proof.
  unfold _as_integer, try_catch_all.
  destruct (call_int h obj) as [v|e]; eauto.
Qed.

Example sample_parser_is_constructed :
  new_ScholarArticleParser "http://scholar.google.com" (Some example_site)
  = Ret sample_parser.
Proof. reflexivity. Qed.

Example empty_site_takes_configured :
  exists p,
    new_ScholarArticleParser "http://scholar.google.com" (Some "") = Ret p /\
    site p = "http://scholar.google.com".
Proof. eexists. split; reflexivity. Qed.

(** X15: where the three undeclared identifiers can be assigned and the adapter
    answers, [_parse_globals] returns normally: what goes wrong inside its
    [try] is swallowed. *)
Lemma parse_globals_swallows (h : Host) (sp : Soup) (p : Parser)
    (props : list (string * value)) (tag : value)
    (raw_text : option (list value)) :
  assign_global h "name" = None ->
  assign_global h "attrs" = None ->
  assign_global h "string" = None ->
  soup p = VObj props ->
  soup_find sp (soup p) (VStr "div") (VObj [("id", VStr "gs_ab_md")])
  = Ret tag ->
  (nullish tag = false -> call_findAll sp tag (VBool true) = Ret raw_text) ->
  _parse_globals h sp p = Ret p.
Proof.
  intros Hname Hattrs Hstring Hsoup Hfind Hall.
  destruct (parse_globals_unchanged_or_throws h sp p) as [Hret | (e & Hthrow)];
    [exact Hret|].
  exfalso. revert Hthrow. unfold _parse_globals, assign.
  rewrite Hname, Hattrs, Hsoup. simpl.
  rewrite Hsoup in Hfind. rewrite Hfind. simpl.
  destruct (nullish tag) eqn:Hnull; [discriminate|].
  rewrite Hstring. simpl. rewrite (Hall eq_refl). simpl.
  destruct raw_text as [[|first rest]|]; try discriminate.
  unfold try_catch_all.
  destruct (_ <- split first None None ;; _); discriminate.
Qed.

(** X23: every record that a completed [parse] has handed to [handle_article]
    has a non-empty title. *)
Lemma parse_emits_titled {L : Layout} (h : Host) (sp : Soup) (html : string)
    (p p' : Parser) :
  parse h sp html p = Ret p' ->
  exists recs,
    emitted p' = (emitted p ++ recs)%list /\
    Forall (fun a => truthy (title a) = true) recs.
Proof.
  unfold parse.
  destruct (parse_globals_unchanged_or_throws h sp
              (set_soup (make_soup sp html) p)) as [-> | (e & ->)];
    simpl; [|discriminate].
  destruct (member_base (make_soup sp html)); simpl; [|discriminate].
  destruct (call_findAll sp (make_soup sp html) VUndefined) as [divs|e];
    simpl; [|discriminate].
  intros Hloop.
  exact (parse_loop_emits_titled h sp _ _ _ Hloop).
Qed.

(** X24: In Node.js [parse] throws ReferenceError on every page for which the
    adapter builds a tree: [_parse_globals] assigns the undeclared
    [name]. *)
Lemma parse_node_host_throws {L : Layout} (sp : Soup) (html : string)
    (p : Parser) (props : list (string * value)) :
  make_soup sp html = VObj props ->
  parse node_host sp html p = Throw ReferenceError.
Proof.
  intros Hsoup. unfold parse, _parse_globals. simpl.
  now rewrite Hsoup.
Qed.

(** * The rest of the two files *)

(** ** [_strip_urlArg] on every input *)

Section StripUrlArg.

Variable h : Host.

Lemma strip_urlArg_string_url (url : string) (arg : value) :
  _strip_urlArg h (VStr url) arg = Ret (VStr url) \/
  exists e, _strip_urlArg h (VStr url) arg = Throw e.
Proof.
  unfold _strip_urlArg.
  destruct (split_limit_one url "?") as (piece & ->). simpl.
  destruct (call_length h (VArr [VStr piece])) as [n|e]; simpl; [|eauto].
  destruct (n =? 2)%Z; simpl; eauto.
Qed.

(** X5: in every host, whatever [_strip_urlArg] returns for a string url is
    that url, character for character: no argument is ever removed,
    whatever the argument name is. *)
Theorem strip_urlArg_returns_only_url (url : string) (arg v : value) :
  _strip_urlArg h (VStr url) arg = Ret v -> v = VStr url.
Proof.
  intros Hret.
  destruct (strip_urlArg_string_url url arg) as [Hsame | (e & Hthrow)].
  - rewrite Hsame in Hret. now injection Hret as <-.
  - rewrite Hthrow in Hret. discriminate.
Qed.

(** X7: a url that is not a string (an absent href, say) makes [_strip_urlArg]
    throw TypeError at [url.split], before [length] is read. *)
Theorem strip_urlArg_non_string_url (url arg : value) :
  (forall s, url <> VStr s) ->
  _strip_urlArg h url arg = Throw TypeError.
Proof.
  intros Hns. destruct url; try reflexivity.
  now elim (Hns s).
Qed.

End StripUrlArg.

Lemma strip_urlArg_returns_only_url_witness :
  _strip_urlArg lenient_host (VStr "https://x/y?num=5&cites=9") (VStr "num")
  = Ret (VStr "https://x/y?num=5&cites=9") /\
  VStr "https://x/y?num=5&cites=9" = VStr "https://x/y?num=5&cites=9".
Proof.
  split; [reflexivity|].
  apply (strip_urlArg_returns_only_url lenient_host
           "https://x/y?num=5&cites=9" (VStr "num")).
  reflexivity.
Defined.

Lemma strip_urlArg_non_string_url_witness :
  _strip_urlArg lenient_host VUndefined (VStr "num") = Throw TypeError.
Proof.
  apply (strip_urlArg_non_string_url lenient_host VUndefined (VStr "num")).
  intros s. discriminate.
Defined.

(** X6: In Node.js [_strip_urlArg] completes for no input: it throws
    ReferenceError at [length] for a string url and TypeError at
    [url.split] for anything else. *)
Theorem strip_urlArg_node_always_throws (url arg : value) :
  _strip_urlArg node_host url arg
  = Throw match url with VStr _ => ReferenceError | _ => TypeError end.
Proof.
  destruct url; reflexivity.
Qed.

(** ** The loop body of [_parse_links] on nodes *)

Section LinksBody.

Variable h : Host.
Variable this_site : string.

Lemma static_call_then_throws {A B : Type} (args : js A)
    (k : value -> js B) :
  exists e, (v <- call_static_on_instance args ;; k v) = Throw e.
Proof.
  unfold call_static_on_instance. destruct args; simpl; eauto.
Qed.

(** X3: an anchor whose href begins with [/scholar?cites] makes the loop body
    throw, in every host and whatever its text is. *)
Theorem links_body_cites_throws (tag nm : value) (s : string) (a : Article) :
  hasOwnProperty tag "name" = Ret true ->
  get tag "name" = Ret nm ->
  loose_eq_name nm "a" = true ->
  get tag "href" = Ret (VStr s) ->
  prefix "/scholar?cites" s = true ->
  exists e, links_body h this_site tag a = Throw e.
Proof.
  intros Hown Hnm Ha Hhref Hcites.
  unfold links_body. rewrite Hown. simpl. rewrite Hnm. simpl.
  rewrite Ha. simpl. rewrite Hhref. simpl. rewrite Hcites. simpl.
  destruct (strip_urlArg_string_url h "num" (VStr (_path2url this_site s)))
    as [Hstrip | (e0 & Hstrip)].
  - destruct (hasOwnProperty tag "string") as [[|]|e]; simpl; [| |eauto].
    + destruct (get tag "string") as [txt|e]; simpl; [|eauto].
      destruct (startsWith txt "Cited by") as [[|]|e]; simpl; [| |eauto].
      * unfold call_static_on_instance.
        destruct (_ <- split txt None None ;; _); simpl; eauto.
      * rewrite Hstrip. simpl. eauto.
    + rewrite Hstrip. simpl. eauto.
  - destruct (hasOwnProperty tag "string") as [[|]|e]; simpl; [| |eauto].
    + destruct (get tag "string") as [txt|e]; simpl; [|eauto].
      destruct (startsWith txt "Cited by") as [[|]|e]; simpl; [| |eauto].
      * unfold call_static_on_instance.
        destruct (_ <- split txt None None ;; _); simpl; eauto.
      * rewrite Hstrip. simpl. eauto.
    + rewrite Hstrip. simpl. eauto.
Qed.

(** X4: an anchor whose href begins neither with [/scholar?cites] nor with
    [/scholar?cluster] is ignored: the record is returned as it was. *)
Theorem links_body_ignores_other_anchor (tag nm : value) (s : string)
    (a : Article) :
  hasOwnProperty tag "name" = Ret true ->
  get tag "name" = Ret nm ->
  loose_eq_name nm "a" = true ->
  get tag "href" = Ret (VStr s) ->
  prefix "/scholar?cites" s = false ->
  prefix "/scholar?cluster" s = false ->
  links_body h this_site tag a = Ret a.
Proof.
  intros Hown Hnm Ha Hhref Hcites Hcluster.
  unfold links_body. rewrite Hown. simpl. rewrite Hnm. simpl.
  rewrite Ha. simpl. rewrite Hhref. simpl.
  rewrite Hcites. simpl. now rewrite Hcluster.
Qed.

(** X2: whatever the loop body is applied to, the only field it can ever write
    before returning is [url_versions], and the only value it can write is
    the string "num": [_strip_urlArg] is called with its arguments in the
    order (name, url), and hands back its first. *)
Theorem links_body_writes_only_url_versions (tag : value) (a a' : Article) :
  links_body h this_site tag a = Ret a' ->
  a' = a \/ a' = set_url_versions (VStr "num") a.
Proof.
  intros Hret. pose proof Hret as H0. unfold links_body in H0.
  destruct (hasOwnProperty tag "name") as [[|]|e] eqn:Hown; simpl in H0;
    [| injection H0 as <-; now left | discriminate].
  destruct (get tag "name") as [nm|e] eqn:Hnm; simpl in H0; [|discriminate].
  destruct (loose_eq_name nm "a") eqn:Ha; simpl in H0;
    [| injection H0 as <-; now left].
  destruct (get tag "href") as [hr|e] eqn:Hhref; simpl in H0; [|discriminate].
  destruct (nullish hr) eqn:Hnull; simpl in H0;
    [injection H0 as <-; now left|].
  destruct hr as [ | | b | n | s | xs | props ]; try discriminate.
  simpl in H0.
  destruct (prefix "/scholar?cites" s) eqn:Hcites.
  - exfalso. simpl in H0.
    destruct (strip_urlArg_string_url h "num" (VStr (_path2url this_site s)))
      as [Hstrip | (e0 & Hstrip)];
      (destruct (hasOwnProperty tag "string") as [[|]|e]; simpl in H0;
         [| rewrite Hstrip in H0; discriminate | discriminate];
       destruct (get tag "string") as [txt|e]; simpl in H0; [|discriminate];
       destruct (startsWith txt "Cited by") as [[|]|e]; simpl in H0;
         [| rewrite Hstrip in H0; discriminate | discriminate];
       unfold call_static_on_instance in H0;
       destruct (_ <- split txt None None ;; _) in H0; discriminate).
  - simpl in H0.
    destruct (prefix "/scholar?cluster" s) eqn:Hcluster; simpl in H0;
      [| injection H0 as <-; now left].
    assert (Htail : forall a0,
      (stripped <- _strip_urlArg h (VStr "num")
                     (VStr (_path2url this_site s)) ;;
       Ret (set_url_versions stripped a0)) = Ret a' ->
      a' = set_url_versions (VStr "num") a0).
    { intros a0.
      destruct (strip_urlArg_string_url h "num"
                  (VStr (_path2url this_site s))) as [-> | (e & ->)]; simpl.
      - now intros [= <-].
      - discriminate. }
    destruct (hasOwnProperty tag "string") as [[|]|e]; simpl in H0;
      [| right; now apply Htail | discriminate].
    destruct (get tag "string") as [txt|e]; simpl in H0; [|discriminate].
    destruct (startsWith txt "All ") as [[|]|e]; simpl in H0;
      [| right; now apply Htail | discriminate].
    unfold call_static_on_instance in H0.
    destruct (_ <- split txt None None ;; _) in H0; discriminate.
Qed.

End LinksBody.

Lemma links_body_cites_throws_witness :
  exists e,
    links_body lenient_host example_site cites_anchor_no_text ScholarArticle
    = Throw e.
Proof.
  apply (links_body_cites_throws lenient_host example_site
           cites_anchor_no_text (VStr "a") "/scholar?cites=12345&num=20"
           ScholarArticle); reflexivity.
Defined.

Lemma links_body_ignores_other_anchor_witness :
  links_body node_host example_site other_anchor ScholarArticle
  = Ret ScholarArticle.
Proof.
  apply (links_body_ignores_other_anchor node_host example_site other_anchor
           (VStr "a") "/citations?user=abc" ScholarArticle); reflexivity.
Defined.

(** The version anchor without text in the lenient host: [url_versions]
    becomes "num". *)
Lemma links_body_writes_only_url_versions_witness :
  links_body lenient_host example_site cluster_anchor_no_text ScholarArticle
  = Ret (set_url_versions (VStr "num") ScholarArticle) /\
  (set_url_versions (VStr "num") ScholarArticle = ScholarArticle \/
   set_url_versions (VStr "num") ScholarArticle
   = set_url_versions (VStr "num") ScholarArticle).
Proof.
  split; [reflexivity|].
  apply (links_body_writes_only_url_versions lenient_host example_site
           cluster_anchor_no_text).
  reflexivity.
Defined.

(** ** More on [_path2url] *)

Section Path2UrlMore.

Variable this_site : string.

(** X8: a relative path with and without its leading slash resolves to the same
    URL. *)
Theorem path2url_leading_slash_collision (path : string) :
  prefix "http://" path = false ->
  prefix "/" path = false ->
  _path2url this_site ("/" ++ path) = _path2url this_site path.
Proof.
  intros Hp Hs.
  rewrite (path2url_relative this_site path Hp). rewrite Hs.
  unfold _path2url. simpl. now destruct path.
Qed.

(** X9: the path is never altered: it is a suffix of the result, and what is
    put before it is nothing, the site base, or the site base and one
    slash. *)
Theorem path2url_keeps_path (path : string) :
  exists pre,
    _path2url this_site path = pre ++ path /\
    (pre = "" \/ pre = this_site \/ pre = this_site ++ "/").
Proof.
  unfold _path2url.
  destruct (prefix "http://" path).
  - exists "". split; [reflexivity | now left].
  - destruct (prefix "/" path); simpl.
    + exists this_site. split; [reflexivity | right; now left].
    + exists (this_site ++ "/"). split; [|right; now right].
      clear. induction this_site as [|c t IH]; simpl;
        [reflexivity | now rewrite IH].
Qed.

End Path2UrlMore.

Lemma path2url_leading_slash_collision_witness :
  _path2url example_site "/scholar?q=coq" = _path2url example_site "scholar?q=coq".
Proof.
  apply (path2url_leading_slash_collision example_site "scholar?q=coq");
    reflexivity.
Defined.

(** ** [_as_integer] *)

(** X10: [_as_integer] never throws: its [catch] takes every exception, of
    whatever kind, and the result is then [undefined]; in Node.js, where
    [int] is unbound, the result is [undefined] for every argument. *)
Theorem as_integer_swallows_everything (h : Host) (obj : value) :
  (exists v, _as_integer h obj = Ret v) /\
  (forall e, call_int h obj = Throw e -> _as_integer h obj = Ret VUndefined) /\
  _as_integer node_host obj = Ret VUndefined.
Proof.
  unfold _as_integer, try_catch_all. split; [|split].
  - destruct (call_int h obj); eauto.
  - now intros e ->.
  - reflexivity.
Qed.

(** ** [_clean_article] *)

(** X11: Cleanup touches the title and nothing else: when it returns, every
    other field of the record, the tree, the site and both callback
    histories are as before, and a record without a title is left wholly
    unchanged. *)
Theorem clean_article_frame (h : Host) (p p' : Parser) :
  _clean_article h p = Ret p' ->
  exists a a',
    article p = Some a /\ article p' = Some a' /\
    url a' = url a /\ url_pdf a' = url_pdf a /\ year a' = year a /\
    num_citations a' = num_citations a /\
    url_citations a' = url_citations a /\ cluster_id a' = cluster_id a /\
    num_versions a' = num_versions a /\ url_versions a' = url_versions a /\
    soup p' = soup p /\ site p' = site p /\
    emitted p' = emitted p /\ reported p' = reported p /\
    (truthy (title a) = false -> p' = p).
Proof.
  unfold _clean_article.
  destruct (article p) as [a|] eqn:Ha; [|discriminate].
  destruct (truthy (title a)) eqn:Ht.
  - destruct (call_strip h (title a)) as [t|e]; simpl; [|discriminate].
    intros [= <-]. exists a, (set_title t a). simpl.
    repeat (split; [reflexivity || assumption|]). congruence.
  - intros [= <-]. exists a, a.
    repeat (split; [reflexivity || assumption|]). reflexivity.
Qed.

Lemma clean_article_frame_witness :
  exists a a',
    article (set_article (set_title (VStr " Big Data ") ScholarArticle)
               sample_parser) = Some a /\
    article (set_article (set_title (VStr "Big Data") ScholarArticle)
               sample_parser) = Some a' /\
    url a' = url a /\ url_pdf a' = url_pdf a /\ year a' = year a /\
    num_citations a' = num_citations a /\
    url_citations a' = url_citations a /\ cluster_id a' = cluster_id a /\
    num_versions a' = num_versions a /\ url_versions a' = url_versions a.
Proof.
  destruct (clean_article_frame lenient_host
              (set_article (set_title (VStr " Big Data ") ScholarArticle)
                 sample_parser)
              (set_article (set_title (VStr "Big Data") ScholarArticle)
                 sample_parser) eq_refl)
    as (a & a' & H1 & H2 & H3 & H4 & H5 & H6 & H7 & H8 & H9 & H10 & _).
  exists a, a'. repeat (split; [assumption|]). assumption.
Defined.

(** X12: In Node.js cleanup returns exactly for a parser that holds a record
    without a title; a record with a title, or no record at all, makes it
    throw TypeError. *)
Theorem clean_article_node (p : Parser) :
  ((exists p', _clean_article node_host p = Ret p') <->
   (exists a, article p = Some a /\ truthy (title a) = false)) /\
  ((forall p', _clean_article node_host p <> Ret p') ->
   _clean_article node_host p = Throw TypeError).
Proof.
  unfold _clean_article.
  destruct (article p) as [a|].
  - destruct (truthy (title a)) eqn:Ht.
    + assert (Hs : call_strip node_host (title a) = Throw TypeError)
        by now destruct (title a).
      rewrite Hs. simpl. split; [split|reflexivity].
      * intros [p' Hp']. discriminate.
      * intros (a0 & [= <-] & Ht0). congruence.
    + split; [split|].
      * intros _. now exists a.
      * intros _. now exists p.
      * intros Hno. now elim (Hno p).
  - split; [split|reflexivity].
    + intros [p' Hp']. discriminate.
    + intros (a0 & Ha0 & _). discriminate.
Qed.

(** X13: a parser that has just been constructed holds no record: cleanup
    before any extraction throws TypeError, in every host. *)
Theorem clean_article_after_construction (h : Host) (conf_site : string)
    (site_arg : option string) (p : Parser) :
  new_ScholarArticleParser conf_site site_arg = Ret p ->
  _clean_article h p = Throw TypeError.
Proof.
  unfold new_ScholarArticleParser. now intros [= <-].
Qed.

Lemma clean_article_after_construction_witness :
  _clean_article lenient_host sample_parser = Throw TypeError.
Proof.
  apply (clean_article_after_construction lenient_host
           "http://scholar.google.com" (Some example_site) sample_parser).
  reflexivity.
Defined.

(** ** [_parse_globals] on every page *)

(** X14: whenever [_parse_globals] returns, the parser is exactly as it was: the
    result count is reported for no page and in no host. *)
Theorem parse_globals_never_reports (h : Host) (sp : Soup) (p p' : Parser) :
  _parse_globals h sp p = Ret p' -> p' = p.
Proof.
  intros Hret.
  destruct (parse_globals_unchanged_or_throws h sp p) as [Hsame | (e & Hthrow)].
  - rewrite Hsame in Hret. now injection Hret as <-.
  - rewrite Hthrow in Hret. discriminate.
Qed.

Lemma parse_globals_never_reports_witness :
  set_soup (make_soup sample_soup "<html>") sample_parser
  = set_soup (make_soup sample_soup "<html>") sample_parser.
Proof.
  apply (parse_globals_never_reports lenient_host sample_soup
           (set_soup (make_soup sample_soup "<html>") sample_parser)).
  reflexivity.
Defined.

Lemma parse_globals_swallows_witness :
  _parse_globals lenient_host sample_soup
    (set_soup (make_soup sample_soup "<html>") sample_parser)
  = Ret (set_soup (make_soup sample_soup "<html>") sample_parser).
Proof.
  apply (parse_globals_swallows lenient_host sample_soup
           (set_soup (make_soup sample_soup "<html>") sample_parser)
           [("html", VStr "<html>")] stats_node
           (Some [VStr "About 1,234 results (0.04 sec)"]));
    reflexivity.
Defined.

(** X16: In Node.js [_parse_globals] throws for every page and every adapter:
    TypeError when there is no tree, ReferenceError at the assignment to
    the undeclared [name] otherwise, before the adapter is asked
    anything. *)
Theorem parse_globals_node_always_throws (sp : Soup) (p : Parser) :
  _parse_globals node_host sp p
  = Throw (if nullish (soup p) then TypeError else ReferenceError).
Proof.
  unfold _parse_globals, member_base.
  destruct (nullish (soup p)); reflexivity.
Qed.

(** ** The loop bodies of [_parse_article] on nodes *)

Section ArticleBodies.

Variable h : Host.
Variable sp : Soup.
Variable this_site : string.

Lemma font_loop_unchanged (tag : value) (a : Article) :
  for_each (for_in tag)
    (fun key a =>
       let tag2 := VStr key in
       own2 <- hasOwnProperty tag2 "name" ;;
       if negb own2 then Ret a
       else
         nm2 <- get tag2 "name" ;;
         is_links <- (if loose_eq_name nm2 "span" then
                        c <- call_static_on_instance (Ret (tag2, "gs_f1")) ;;
                        Ret (truthy c)
                      else Ret false) ;;
         if is_links then _parse_links h this_site tag2 a else Ret a)
    a = Ret a.
Proof.
  apply for_each_unchanged. intros k a0. cbv zeta.
  now rewrite string_owns_no_name.
Qed.

(** X17: applied to any value, a node included, the loop body of the base
    layout writes no field: it returns the record it was given, or
    throws. *)
Theorem article_body_never_writes (tag : value) (a r : Article) :
  article_body h sp this_site tag a = Ret r -> r = a.
Proof.
  unfold article_body.
  destruct (hasOwnProperty tag "name") as [[|]|e]; simpl;
    [| now intros [= <-] | discriminate].
  destruct (get tag "name") as [nm|e]; simpl; [|discriminate].
  destruct (loose_eq_name nm "div"); simpl; [discriminate|].
  destruct (loose_eq_name nm "font").
  - rewrite font_loop_unchanged. now intros [= <-].
  - now intros [= <-].
Qed.

(** X18: applied to any value, a node included, the loop body of layout
    120201 writes no field: it returns the record it was given, or
    throws. *)
Theorem article_body_120201_never_writes (tag : value) (a r : Article) :
  article_body_120201 h sp this_site tag a = Ret r -> r = a.
Proof.
  unfold article_body_120201.
  destruct (hasOwnProperty tag "name") as [[|]|e]; simpl;
    [| now intros [= <-] | discriminate].
  destruct (get tag "name") as [nm|e]; simpl; [|discriminate].
  destruct (loose_eq_name nm "h3"); simpl; [discriminate|].
  destruct (loose_eq_name nm "div"); simpl; [discriminate|].
  now intros [= <-].
Qed.

(** X19: an element named 'div' makes either loop body throw TypeError, at the
    call of the static [_tag_hasClass] on the instance. *)
Theorem article_bodies_throw_on_div (tag nm : value) (a : Article) :
  hasOwnProperty tag "name" = Ret true ->
  get tag "name" = Ret nm ->
  loose_eq_name nm "div" = true ->
  article_body h sp this_site tag a = Throw TypeError /\
  article_body_120201 h sp this_site tag a = Throw TypeError.
Proof.
  intros Hown Hnm Hdiv. unfold article_body, article_body_120201.
  rewrite Hown. simpl. rewrite Hnm. simpl. rewrite Hdiv. simpl.
  split; [reflexivity|].
  now destruct (loose_eq_name nm "h3").
Qed.

End ArticleBodies.

Lemma article_body_never_writes_witness :
  ScholarArticle = ScholarArticle.
Proof.
  apply (article_body_never_writes lenient_host sample_soup example_site
           (VObj [("name", VStr "font"); ("0", links_div)])
           ScholarArticle ScholarArticle).
  reflexivity.
Defined.

Lemma article_body_120201_never_writes_witness :
  ScholarArticle = ScholarArticle.
Proof.
  apply (article_body_120201_never_writes lenient_host sample_soup
           example_site (VObj [("name", VStr "span")])
           ScholarArticle ScholarArticle).
  reflexivity.
Defined.

Lemma article_bodies_throw_on_div_witness :
  article_body lenient_host sample_soup example_site byline_div ScholarArticle
  = Throw TypeError /\
  article_body_120201 lenient_host sample_soup example_site byline_div
    ScholarArticle = Throw TypeError.
Proof.
  apply (article_bodies_throw_on_div lenient_host sample_soup example_site
           byline_div (VStr "div") ScholarArticle); reflexivity.
Defined.

(** X20: the two layouts cannot be told apart: for every container, host,
    adapter and parser, [undefined] included, each returns the fresh
    record. *)
Theorem layouts_agree_on_fresh_record (h h' : Host) (sp sp' : Soup)
    (p p' : Parser) (div : value) :
  _parse_article (Layout := ScholarArticleParser) h sp p div
  = _parse_article (Layout := ScholarArticleParser_120201) h' sp' p' div /\
  _parse_article (Layout := ScholarArticleParser) h sp p div
  = Ret ScholarArticle.
Proof.
  rewrite parse_article_fresh, parse_article_120201_fresh. now split.
Qed.

(** ** [parse] as a whole *)

Section ParseWhole.

Variable h : Host.
Variable sp : Soup.

(** A run of the loop of [parse] with a layout that extracts the fresh
    record keeps the tree, the site and both callback histories. *)
Lemma parse_loop_silent {L : Layout}
    (Hfresh : forall p div, _parse_article h sp p div = Ret ScholarArticle)
    (keys : list string) :
  forall p p',
    for_each keys (fun div p => parse_result h sp (VStr div) p) p = Ret p' ->
    soup p' = soup p /\ site p' = site p /\
    emitted p' = emitted p /\ reported p' = reported p.
Proof.
  induction keys as [|k keys IH]; intros p p'; simpl.
  - intros [= <-]. now repeat split.
  - unfold parse_result at 1. rewrite Hfresh. simpl.
    intros Hrest. destruct (IH _ _ Hrest) as (H1 & H2 & H3 & H4).
    now repeat split.
Qed.

(** X21: with either layout of the two files, in every host and for every
    page, a [parse] that returns has invoked neither [handle_article] nor
    [handle_numResults]; it has only replaced the tree. *)
Theorem parse_invokes_no_callback (html : string) (p : Parser) :
  (forall p',
     parse (H := ScholarArticleParser) h sp html p = Ret p' ->
     emitted p' = emitted p /\ reported p' = reported p /\
     soup p' = make_soup sp html) /\
  (forall p',
     parse (H := ScholarArticleParser_120201) h sp html p = Ret p' ->
     emitted p' = emitted p /\ reported p' = reported p /\
     soup p' = make_soup sp html).
Proof.
  split; intros p'; unfold parse;
    (destruct (parse_globals_unchanged_or_throws h sp
                 (set_soup (make_soup sp html) p)) as [-> | (e & ->)];
     simpl; [|discriminate]);
    (destruct (member_base (make_soup sp html)); simpl; [|discriminate]);
    (destruct (call_findAll sp (make_soup sp html) VUndefined) as [divs|e];
     simpl; [|discriminate]);
    intros Hloop.
  - destruct (parse_loop_silent (L := ScholarArticleParser)
                (fun p div => parse_article_fresh h sp p div) _ _ _ Hloop)
      as (H1 & _ & H3 & H4).
    now repeat split.
  - destruct (parse_loop_silent (L := ScholarArticleParser_120201)
                (fun p div => parse_article_120201_fresh h sp p div)
                _ _ _ Hloop)
      as (H1 & _ & H3 & H4).
    now repeat split.
Qed.

(** X22: on a page for which [findAll] returns no result container (an empty
    array, or [undefined]), [parse] with any layout never calls
    [_parse_article]: when it returns, the parser differs from the one it
    started from in its tree only. *)
Theorem parse_without_containers {L : Layout} (html : string)
    (p p' : Parser) (props : list (string * value)) :
  make_soup sp html = VObj props ->
  soup_findAll sp (VObj props) VUndefined = Ret None \/
  soup_findAll sp (VObj props) VUndefined = Ret (Some []) ->
  parse h sp html p = Ret p' ->
  p' = set_soup (VObj props) p.
Proof.
  intros Hsoup Hnone. unfold parse. rewrite Hsoup.
  destruct (parse_globals_unchanged_or_throws h sp (set_soup (VObj props) p))
    as [-> | (e & ->)]; simpl; [|discriminate].
  destruct Hnone as [-> | ->]; simpl; now intros [= <-].
Qed.

End ParseWhole.

Lemma parse_invokes_no_callback_witness :
  emitted (set_article ScholarArticle
             (set_soup (make_soup sample_soup "<html>") sample_parser))
  = emitted sample_parser.
Proof.
  destruct (parse_invokes_no_callback lenient_host sample_soup "<html>"
              sample_parser) as [Hbase _].
  apply (Hbase (set_article ScholarArticle
                  (set_soup (make_soup sample_soup "<html>") sample_parser))).
  reflexivity.
Defined.

Lemma parse_without_containers_witness :
  set_soup (VObj [("html", VStr "<html>")]) sample_parser
  = set_soup (VObj [("html", VStr "<html>")]) sample_parser.
Proof.
  apply (parse_without_containers (L := ScholarArticleParser_120201)
           lenient_host empty_soup "<html>" sample_parser
           (set_soup (VObj [("html", VStr "<html>")]) sample_parser)
           [("html", VStr "<html>")]).
  - reflexivity.
  - right. reflexivity.
  - reflexivity.
Defined.

Lemma parse_node_host_throws_witness :
  parse (H := ScholarArticleParser) node_host sample_soup "<html>"
    sample_parser = Throw ReferenceError.
Proof.
  apply (parse_node_host_throws (L := ScholarArticleParser) sample_soup
           "<html>" sample_parser [("html", VStr "<html>")]).
  reflexivity.
Defined.

(** A page with one container, a layout that extracts the title
    "  Big Data ", the lenient host: one record is emitted. *)
Lemma parse_emits_titled_witness :
  exists recs,
    emitted
      (handle_article (set_title (VStr "Big Data") ScholarArticle)
         (set_article (set_title (VStr "Big Data") ScholarArticle)
            (set_soup (make_soup sample_soup "<html>") sample_parser)))
    = (emitted sample_parser ++ recs)%list /\
    Forall (fun a => truthy (title a) = true) recs.
Proof.
  apply (parse_emits_titled
           (L := constant_layout (set_title (VStr "  Big Data ") ScholarArticle))
           lenient_host sample_soup "<html>" sample_parser).
  reflexivity.
Defined.

Lemma node_host_never_emits_witness :
  emitted (set_article ScholarArticle sample_parser) = emitted sample_parser.
Proof.
  apply (node_host_never_emits (L := ScholarArticleParser) sample_soup
           (VStr "0") sample_parser).
  reflexivity.
Defined.

(** ** The static helpers *)

Section Statics.

Lemma string_of_nat_starts_with_digit (i : nat) :
  starts_with_digit (string_of_nat i) = true.
Proof.
  unfold string_of_nat, NilZero.string_of_uint.
  destruct (Nat.to_uint i); reflexivity.
Qed.

Lemma index_of_key_needs_digit (len : nat) (k : string) :
  starts_with_digit k = false -> index_of_key len k = None.
Proof.
  intros Hk. unfold index_of_key. generalize 0%nat.
  induction len as [|len IH]; intros start; simpl; [reflexivity|].
  destruct (string_of_nat start =? k) eqn:Heq; [|apply IH].
  apply String.eqb_eq in Heq. subst k.
  rewrite string_of_nat_starts_with_digit in Hk. discriminate.
Qed.

Variable pr : Prototypes.

(** X26: where the identifier [object] is unbound, as in Node.js,
    [_tag_hasClass] throws ReferenceError for every tag and every class
    name. *)
Theorem tag_hasClass_unbound_object (tag : value) (klass : string) :
  nullish tag = false ->
  _tag_hasClass None pr tag klass = Throw ReferenceError.
Proof.
  intros Hdef. unfold _tag_hasClass.
  destruct (get tag "class") as [c|e] eqn:Hc; [reflexivity|].
  destruct tag; try discriminate Hdef; simpl in Hc;
    repeat match type of Hc with
           | (if ?b then _ else _) = _ => destruct b
           | match ?x with _ => _ end = _ => destruct x
           end; discriminate Hc.
Qed.

(** An array has no key that is neither [length], nor an index, nor a
    built-in member. *)
Lemma array_lacks_key (klass : string) (xs : list value) :
  (klass =? "length") = false ->
  starts_with_digit klass = false ->
  Array_prototype_has pr klass = false ->
  Object_prototype_has pr klass = false ->
  has_property pr (VArr xs) klass = Ret false.
Proof.
  intros Hlen Hdig Harr Hob. simpl.
  now rewrite Hlen, (index_of_key_needs_digit _ _ Hdig), Harr, Hob.
Qed.

(** The cases of the class attribute [c] in the body of [_tag_hasClass],
    given that arrays lack the key. *)
Ltac class_attribute_cases c Hobj Harray :=
  destruct c as [ | | [|] | ? | ? | ? | props ];
  try (now elim (Hobj props));
  cbn -[has_property];
  repeat match goal with
         | |- context [if ?b then _ else _] => destruct b
         end;
  cbn -[has_property]; rewrite ?Harray; discriminate.

(** X27: [klass in result] looks for a key.  Whatever [object] is bound to, a
    class attribute that is a string, an array or absent never makes
    [_tag_hasClass] answer [true] for a class name that is not [length],
    does not begin with a digit and is not the name of a built-in
    member. *)
Theorem tag_hasClass_tests_keys (object_binding : option value)
    (tag c : value) (klass : string) :
  get tag "class" = Ret c ->
  (forall props, c <> VObj props) ->
  (klass =? "length") = false ->
  starts_with_digit klass = false ->
  Array_prototype_has pr klass = false ->
  Object_prototype_has pr klass = false ->
  _tag_hasClass object_binding pr tag klass <> Ret true.
Proof.
  intros Hc Hobj Hlen Hdig Harr Hob.
  unfold _tag_hasClass. rewrite Hc. simpl.
  destruct object_binding as [obj|]; simpl; [|discriminate].
  assert (Harray : forall xs, has_property pr (VArr xs) klass = Ret false)
    by (intros xs; now apply array_lacks_key).
  class_attribute_cases c Hobj Harray.
Qed.

(** A tag whose name is not 'div' is rejected by [_tag_resultsChecker]
    without a look at its class attribute, also where [object] is
    unbound. *)
Theorem tag_resultsChecker_rejects_other_names
    (object_binding : option value) (tag nm : value) :
  get tag "name" = Ret nm ->
  loose_eq_name nm "div" = false ->
  _tag_resultsChecker object_binding pr tag = Ret false.
Proof.
  intros Hnm Hdiv. unfold _tag_resultsChecker.
  rewrite Hnm. simpl. now rewrite Hdiv.
Qed.

(** X28: [_tag_resultsChecker] accepts no element whose class attribute is a
    string, an array or absent, the result containers included, unless
    [gs_r] is the name of a built-in member. *)
Theorem tag_resultsChecker_accepts_nothing (object_binding : option value)
    (tag c : value) :
  get tag "class" = Ret c ->
  (forall props, c <> VObj props) ->
  Array_prototype_has pr "gs_r" = false ->
  Object_prototype_has pr "gs_r" = false ->
  _tag_resultsChecker object_binding pr tag <> Ret true.
Proof.
  intros Hc Hobj Harr Hob. unfold _tag_resultsChecker.
  destruct (get tag "name") as [nm|e]; simpl; [|discriminate].
  destruct (loose_eq_name nm "div"); [|discriminate].
  unfold _tag_hasClass. rewrite Hc. simpl.
  destruct object_binding as [obj|]; simpl; [|discriminate].
  assert (Harray : forall xs, has_property pr (VArr xs) "gs_r" = Ret false)
    by (intros xs; now apply array_lacks_key).
  class_attribute_cases c Hobj Harray.
Qed.

End Statics.

Lemma tag_hasClass_unbound_object_witness :
  _tag_hasClass None es2023_prototypes result_container "gs_r"
  = Throw ReferenceError.
Proof.
  apply (tag_hasClass_unbound_object es2023_prototypes result_container
           "gs_r").
  reflexivity.
Defined.

(** A container whose class attribute is the string "gs_r", with [object]
    bound to the string "object": the answer is [false]. *)
Lemma tag_hasClass_tests_keys_witness :
  _tag_hasClass (Some (VStr "object")) es2023_prototypes
    container_string_class "gs_r" = Ret false /\
  _tag_hasClass (Some (VStr "object")) es2023_prototypes
    container_string_class "gs_r" <> Ret true.
Proof.
  split; [reflexivity|].
  apply (tag_hasClass_tests_keys es2023_prototypes (Some (VStr "object"))
           container_string_class (VStr "gs_r") "gs_r");
    try reflexivity.
  intros props. discriminate.
Defined.

Lemma tag_resultsChecker_rejects_other_names_witness :
  _tag_resultsChecker None es2023_prototypes title_h3 = Ret false.
Proof.
  apply (tag_resultsChecker_rejects_other_names es2023_prototypes None
           title_h3 (VStr "h3")); reflexivity.
Defined.

(** The result container of the sample page, whose class attribute is the
    array ["gs_r"]. *)
Lemma tag_resultsChecker_accepts_nothing_witness :
  _tag_resultsChecker (Some (VStr "object")) es2023_prototypes
    result_container = Ret false /\
  _tag_resultsChecker (Some (VStr "object")) es2023_prototypes
    result_container <> Ret true.
Proof.
  split; [reflexivity|].
  apply (tag_resultsChecker_accepts_nothing es2023_prototypes
           (Some (VStr "object")) result_container (VArr [VStr "gs_r"]));
    try reflexivity.
  intros props. discriminate.
Defined.

(** ** [_parse_links] as a whole *)


(** ** The title gate, on [parse] *)

Section ParseTitleGate.

Context {L : Layout}.
Variable h : Host.
Variable sp : Soup.






End ParseTitleGate.

